(** * Inventory management system: a shallow embedding of [inventory_system.py]

    The Python module keeps an inventory in a dictionary from item names to
    records [{"quantity": int, "price": number}], logs every operation through
    the [logging] module, prints reports on standard output and persists the
    whole dictionary as JSON in the file [DATA_FILE].

    The embedding follows the module function by function:
    - the inventory dictionary is a finite map [gmap string record];
    - the values that cross the JSON boundary are the inductive [pyval];
    - a Python function is a computation in the monad [py]: it threads the
      [world] (backing file, log stream, standard output) and either returns
      a value or raises an exception;
    - the dictionary argument [inventory_data], which Python mutates in place
      for its caller, is passed in and handed back as the returned value;
    - the menu loop of [main] reads the lines of standard input in the monad
      [sh], on top of [py];
    - the [json] module is an interface, [Json], of which [python_json] is
      the encoder and the scanner of CPython on the strings of this model;
      the text of a float is left to the interface [FloatText]. *)

From Stdlib Require Import ZArith Ascii DecimalString DecimalZ DecimalPos
  DecimalFacts.
From Stdlib Require Import Floats.PrimFloat Floats.SpecFloat Floats.FloatOps.
From Stdlib Require Floats.FloatAxioms.
From stdpp Require Import gmap strings list fin_maps.

#[local] Open Scope string_scope.
#[local] Open Scope Z_scope.

(* Decimal literals such as 9.99 denote the nearest binary64 value, as they
   do in Python. *)
#[local] Set Warnings "-inexact-float".

(** ** Python values *)

(** A Python number as the module meets it: [int(input(..))] for quantities,
    [float(input(..))] for prices, either of them out of [json.load]. *)
Inductive number :=
  | NInt (z : Z)
  | NFloat (f : float).

(** [x >= 0] on a Python number (IEEE comparison on floats: [nan >= 0] is
    [False], [-0.0 >= 0] is [True]). *)
Definition number_nonneg (x : number) : bool :=
  match x with
  | NInt z => bool_decide (0 ≤ z)
  | NFloat f => PrimFloat.leb 0%float f
  end.

(** The values [json.load] can build and [json.dump] can write; a
    dictionary is the list of its items, in the order it holds them. *)
#[warnings="-register-all"]
Inductive pyval :=
  | PNone
  | PBool (b : bool)
  | PInt (z : Z)
  | PFloat (f : float)
  | PStr (s : string)
  | PList (l : list pyval)
  | PDict (items : list (string * pyval)).

Definition number_to_py (x : number) : pyval :=
  match x with
  | NInt z => PInt z
  | NFloat f => PFloat f
  end.

(** ** The inventory *)

(** The nested dictionary [{"quantity": .., "price": ..}] stored under each
    item name.  [add_item] builds a fresh one for every new name and
    [json.load] builds fresh objects, so each name owns its record and the
    record is stored by value. *)
Record record := Rec { quantity : Z; price : number }.

Abbreviation inventory := (gmap string record).

Definition record_to_py (r : record) : pyval :=
  PDict [("quantity", PInt (quantity r)); ("price", number_to_py (price r))].

(** The inventory as the Python object it is: a dictionary of dictionaries. *)
Definition inventory_to_py (inventory_data : inventory) : pyval :=
  PDict (prod_map id record_to_py <$> map_to_list inventory_data).

(** ** Exceptions *)

Inductive exc_type :=
  | Exception
  | OSError
  | FileNotFoundError
  | PermissionError
  | IsADirectoryError
  | ValueError
  | JSONDecodeError
  | UnicodeDecodeError
  | LookupError
  | KeyError
  | TypeError
  | RecursionError.

#[global] Instance exc_type_eq_dec : EqDecision exc_type.
Proof. solve_decision. Defined.

(** The classes an exception class inherits from, itself first (its method
    resolution order, up to [Exception]). *)
Definition mro (c : exc_type) : list exc_type :=
  match c with
  | Exception => [Exception]
  | OSError => [OSError; Exception]
  | FileNotFoundError => [FileNotFoundError; OSError; Exception]
  | PermissionError => [PermissionError; OSError; Exception]
  | IsADirectoryError => [IsADirectoryError; OSError; Exception]
  | ValueError => [ValueError; Exception]
  | JSONDecodeError => [JSONDecodeError; ValueError; Exception]
  | UnicodeDecodeError => [UnicodeDecodeError; ValueError; Exception]
  | LookupError => [LookupError; Exception]
  | KeyError => [KeyError; LookupError; Exception]
  | TypeError => [TypeError; Exception]
  | RecursionError => [RecursionError; Exception]
  end.

Definition issubclass (c d : exc_type) : bool := bool_decide (d ∈ mro c).

(** A raised exception: its class and [str(e)]. *)
Record exc := Exc { exc_class : exc_type; exc_str : string }.

(** [except (c1, c2, ..)] catches [e]. *)
Definition caught_by (classes : list exc_type) (e : exc) : bool :=
  existsb (issubclass (exc_class e)) classes.

(** ** The world: backing file, log stream, standard output *)

Inductive level := INFO | WARNING | ERROR.

(** One call of [logging.info/warning/error]: the format string and its
    arguments, as passed (the handler formats them lazily). *)
Record log_record := LogRecord {
  log_level : level;
  log_format : string;
  log_args : list pyval
}.

(** What the path [DATA_FILE] names on disk. *)
Inductive fnode :=
  | Missing (creatable : bool)
  | Directory
  | Regular (content : string) (readable writable : bool).

Record world := World {
  disk : fnode;                    (* the entry DATA_FILE *)
  log : list log_record;           (* inventory.log, oldest first *)
  stdout : list (list pyval)       (* printed lines, as f-string fragments *)
}.

(** ** The monad of Python computations *)

Inductive outcome (A : Type) :=
  | Return (a : A)
  | Raise (e : exc).
Arguments Return {A} a.
Arguments Raise {A} e.

Definition py (A : Type) : Type := world → outcome A * world.

#[global] Instance py_ret : MRet py := λ A a w, (Return a, w).

#[global] Instance py_bind : MBind py := λ A B f c w,
  match c w with
  | (Return a, w') => f a w'
  | (Raise e, w') => (Raise e, w')
  end.

Definition raise {A} (e : exc) : py A := λ w, (Raise e, w).

(** [try: body  except classes as e: handler e] *)
Definition try_except {A} (body : py A) (classes : list exc_type)
    (handler : exc → py A) : py A := λ w,
  match body w with
  | (Return a, w') => (Return a, w')
  | (Raise e, w') =>
      if caught_by classes e then handler e w' else (Raise e, w')
  end.

(** The world after one more log record. *)
Definition logged (w : world) (lv : level) (fmt : string) (args : list pyval)
    : world :=
  World (disk w) (log w ++ [LogRecord lv fmt args]) (stdout w).

Definition logging (lv : level) (fmt : string) (args : list pyval) : py unit :=
  λ w, (Return tt, logged w lv fmt args).

Definition print (fragments : list pyval) : py unit :=
  λ w, (Return tt, World (disk w) (log w) (stdout w ++ [fragments])).

(** [for x in xs: body x] *)
Fixpoint for_each {A} (xs : list A) (body : A → py unit) : py unit :=
  match xs with
  | [] => mret tt
  | x :: xs' => body x ;; for_each xs' body
  end.

(** [d[k]], raising [KeyError] on a missing key. *)
Definition getitem (d : inventory) (k : string) : py record :=
  match d !! k with
  | Some r => mret r
  | None => raise (Exc KeyError k)
  end.

(** [del d[k]], raising [KeyError] on a missing key. *)
Definition delitem (d : inventory) (k : string) : py inventory :=
  match d !! k with
  | Some _ => mret (delete k d)
  | None => raise (Exc KeyError k)
  end.

(** ** Constants *)

Definition LOW_STOCK_THRESHOLD : Z := 5.
Definition DATA_FILE : string := "inventory_data.json".

(** ** The inventory store *)

Definition add_item (item_name : string) (qty : Z) (unit_price : number)
    (inventory_data : inventory) : py inventory :=
  if bool_decide (item_name ∈ dom inventory_data) then
    r ← getitem inventory_data item_name;
    let inventory_data :=
      <[item_name := Rec (quantity r + qty) (price r)]> inventory_data in
    logging INFO "Increased quantity for %s by %d" [PStr item_name; PInt qty];;
    mret inventory_data
  else
    let inventory_data :=
      <[item_name := Rec qty unit_price]> inventory_data in
    logging INFO "Added new item %s with quantity %d" [PStr item_name; PInt qty];;
    mret inventory_data.

Definition remove_item (item_name : string) (qty : Z)
    (inventory_data : inventory) : py inventory :=
  if bool_decide (item_name ∉ dom inventory_data) then
    logging WARNING "Attempted to remove %s but item not found" [PStr item_name];;
    mret inventory_data
  else
    r ← getitem inventory_data item_name;
    if bool_decide (quantity r < qty) then
      r ← getitem inventory_data item_name;
      logging WARNING "Cannot remove %d of %s; only %d in stock"
        [PInt qty; PStr item_name; PInt (quantity r)];;
      mret inventory_data
    else
      r ← getitem inventory_data item_name;
      let inventory_data :=
        <[item_name := Rec (quantity r - qty) (price r)]> inventory_data in
      logging INFO "Removed %d of %s" [PInt qty; PStr item_name];;
      r ← getitem inventory_data item_name;
      if bool_decide (quantity r = 0) then
        inventory_data ← delitem inventory_data item_name;
        logging INFO "Item %s is now out of stock and removed" [PStr item_name];;
        mret inventory_data
      else
        mret inventory_data.

(** [inventory_data.get(item_name, {}).get("quantity", 0)] *)
Definition get_qty (item_name : string) (inventory_data : inventory) : Z :=
  match inventory_data !! item_name with
  | Some r => quantity r
  | None => 0
  end.

(** ** The persistence adapter *)

(** The [json] module of the Python standard library, which the module
    imports: [json_load] is [json.load(file)] on the bytes of a file opened
    with [encoding="utf-8"] (decoding and parsing; it returns the value or
    raises), [json_dump] is [json.dump(obj, file, indent=4)]: the text it
    writes to the file, and the exception it stops with, if any. *)
Class Json := {
  json_load : string → outcome pyval;
  json_dump : pyval → string * option exc
}.

(** [os.path.exists(DATA_FILE)] *)
Definition os_path_exists : py bool := λ w,
  match disk w with
  | Missing _ => (Return false, w)
  | Directory | Regular _ _ _ => (Return true, w)
  end.

(** [open(DATA_FILE, "r", encoding="utf-8")]: the bytes there are to read. *)
Definition open_read : py string := λ w,
  match disk w with
  | Missing _ =>
      (Raise (Exc FileNotFoundError "[Errno 2] No such file or directory: 'inventory_data.json'"), w)
  | Directory =>
      (Raise (Exc IsADirectoryError "[Errno 21] Is a directory: 'inventory_data.json'"), w)
  | Regular content true _ => (Return content, w)
  | Regular _ false _ =>
      (Raise (Exc PermissionError "[Errno 13] Permission denied: 'inventory_data.json'"), w)
  end.

(** [open(DATA_FILE, "w", encoding="utf-8")]: creates or truncates the file. *)
Definition open_write : py unit := λ w,
  match disk w with
  | Missing true => (Return tt, World (Regular "" true true) (log w) (stdout w))
  | Regular _ readable true =>
      (Return tt, World (Regular "" readable true) (log w) (stdout w))
  | Missing false | Regular _ _ false =>
      (Raise (Exc PermissionError "[Errno 13] Permission denied: 'inventory_data.json'"), w)
  | Directory =>
      (Raise (Exc IsADirectoryError "[Errno 21] Is a directory: 'inventory_data.json'"), w)
  end.

(** [file.write(text)] on the file opened by [open_write]. *)
Definition file_write (text : string) : py unit := λ w,
  match disk w with
  | Regular content readable writable =>
      (Return tt,
       World (Regular (content +:+ text) readable writable) (log w) (stdout w))
  | Missing _ | Directory => (Return tt, w)
  end.

(** A library call that returns or raises without touching the world. *)
Definition lift_outcome {A} (o : outcome A) : py A := λ w, (o, w).

Section Persistence.
Context `{Json}.

Definition load_data : py pyval :=
  found ← os_path_exists;
  if (found : bool) then
    try_except
      (text ← open_read;
       lift_outcome (json_load text))
      [JSONDecodeError; FileNotFoundError]
      (λ e,
        logging ERROR "Error loading data from %s: %s"
          [PStr DATA_FILE; PStr (exc_str e)];;
        mret (PDict []))
  else
    logging WARNING "No existing data file found at %s" [PStr DATA_FILE];;
    mret (PDict []).

(** [json.dump(obj, file, indent=4)] on the file opened by [open_write]. *)
Definition json_dump_file (obj : pyval) : py unit :=
  file_write (json_dump obj).1;;
  match (json_dump obj).2 with
  | Some e => raise e
  | None => mret tt
  end.

Definition save_data (inventory_data : inventory) : py unit :=
  try_except
    (open_write;;
     json_dump_file (inventory_to_py inventory_data);;
     logging INFO "Inventory data saved successfully to %s" [PStr DATA_FILE])
    [OSError; JSONDecodeError]
    (λ e, logging ERROR "Error saving inventory data: %s" [PStr (exc_str e)]).
End Persistence.

(** ** Reporting *)

(** Both reports walk [inventory_data.items()]; the finite map lists its
    entries in its own key order, where Python lists them in insertion
    order. *)
Definition print_data (inventory_data : inventory) : py unit :=
  if bool_decide (inventory_data = ∅) then
    print [PStr "Inventory is empty."]
  else
    print [PStr "Current Inventory:"];;
    for_each (map_to_list inventory_data) (λ '(item, details),
      print [PStr item; PStr ": Quantity = "; PInt (quantity details);
             PStr ", Price = "; number_to_py (price details)]).

(** The dictionary comprehension of [check_low_items]. *)
Definition low_items (inventory_data : inventory) : inventory :=
  filter (λ '(item, details), quantity details < LOW_STOCK_THRESHOLD)
    inventory_data.

Definition check_low_items (inventory_data : inventory) : py unit :=
  let low_items := low_items inventory_data in
  if bool_decide (low_items ≠ ∅) then
    print [PStr "Low Stock Items:"];;
    for_each (map_to_list low_items) (λ '(item, details),
      print [PStr item; PStr ": Quantity = "; PInt (quantity details);
             PStr ", Threshold = "; PInt LOW_STOCK_THRESHOLD];;
      logging WARNING "Low stock alert for %s (Quantity: %d)"
        [PStr item; PInt (quantity details)])
  else
    print [PStr "No low-stock items found."].

(** * Vocabulary of the properties *)

(** ** Invariants *)

(** No record of the mapping has quantity zero. *)
Definition no_zero_quantity (M : inventory) : Prop :=
  map_Forall (λ _ r, quantity r ≠ 0) M.

(** ** Sequences of operations *)

Inductive op :=
  | Add (item_name : string) (qty : Z) (unit_price : number)
  | Remove (item_name : string) (qty : Z).

Definition apply_op (o : op) (inventory_data : inventory) : py inventory :=
  match o with
  | Add item_name qty unit_price =>
      add_item item_name qty unit_price inventory_data
  | Remove item_name qty => remove_item item_name qty inventory_data
  end.

(** The calls of [ops], in order, on the same dictionary. *)
Fixpoint run_ops (ops : list op) (inventory_data : inventory)
    : py inventory :=
  match ops with
  | [] => mret inventory_data
  | o :: ops' =>
      inventory_data ← apply_op o inventory_data;
      run_ops ops' inventory_data
  end.

Definition record_nonneg (r : record) : Prop :=
  0 ≤ quantity r ∧ number_nonneg (price r) = true.

Definition inventory_nonneg (M : inventory) : Prop :=
  map_Forall (λ _ r, record_nonneg r) M.

(** The arguments under which an operation keeps records non-negative: an
    addition passes a quantity and a price that are not negative; a removal
    may pass anything. *)
Definition op_nonneg (o : op) : Prop :=
  match o with
  | Add _ qty unit_price => 0 ≤ qty ∧ number_nonneg unit_price = true
  | Remove _ _ => True
  end.

(** ** Reports and saves *)

(** The line [check_low_items] prints for a low item, and the record it
    logs. *)
Definition low_stock_line (entry : string * record) : list pyval :=
  [PStr entry.1; PStr ": Quantity = "; PInt (quantity entry.2);
   PStr ", Threshold = "; PInt LOW_STOCK_THRESHOLD].

Definition low_stock_alert (entry : string * record) : log_record :=
  LogRecord WARNING "Low stock alert for %s (Quantity: %d)"
    [PStr entry.1; PInt (quantity entry.2)].

(** The world after a [save_data] that could write the file. *)
Definition saved (w : world) (text : string) : world :=
  World (Regular text true true)
    (log w ++ [LogRecord INFO "Inventory data saved successfully to %s"
                 [PStr DATA_FILE]])
    (stdout w).

(** The path can be created or overwritten, and read back. *)
Definition store_usable (d : fnode) : bool :=
  match d with
  | Missing creatable => creatable
  | Directory => false
  | Regular _ readable writable => readable && writable
  end.

(** ** Sample data *)

(** A fresh session: no backing file yet, empty log, nothing printed. *)
Definition fresh_world : world := World (Missing true) [] [].

(** The inventory after [add_item("Widget", 10, 2.5, {})]. *)
Definition widget_inventory : inventory :=
  {["Widget" := Rec 10 (NFloat 2.5)]}.

(** The inventory after [add_item("Gadget", 3, 1.0, {})]. *)
Definition gadget_inventory : inventory :=
  {["Gadget" := Rec 3 (NFloat 1)]}.

(** The inventory after [add_item("Widget", 0, 2.5, {})]. *)
Definition zero_inventory : inventory :=
  {["Widget" := Rec 0 (NFloat 2.5)]}.

(** ** A sample of the [json] module *)

Definition dquote : string := String "034"%char EmptyString.
Definition newline : string := String "010"%char EmptyString.

(** What [json.dump(.., indent=4)] writes for [widget_inventory]. *)
Definition widget_json : string :=
  "{" +:+ newline +:+
  "    " +:+ dquote +:+ "Widget" +:+ dquote +:+ ": {" +:+ newline +:+
  "        " +:+ dquote +:+ "quantity" +:+ dquote +:+ ": 10," +:+ newline +:+
  "        " +:+ dquote +:+ "price" +:+ dquote +:+ ": 2.5" +:+ newline +:+
  "    }" +:+ newline +:+
  "}".

(** [obj] is the Python object of [widget_inventory]. *)
Definition is_widget_object (obj : pyval) : bool :=
  match obj with
  | PDict [(name, PDict [(key1, PInt q); (key2, PFloat p)])] =>
      String.eqb name "Widget" &&
      String.eqb key1 "quantity" && Z.eqb q 10 &&
      String.eqb key2 "price" && PrimFloat.Leibniz.eqb p 2.5
  | _ => false
  end.

(** The two entries of the [json] module that the sample runs go through:
    dumping the object of [widget_inventory] writes [widget_json], loading
    [widget_json] gives that object back.  Outside these two entries the
    sample [json] refuses: [TypeError] on dumping, [JSONDecodeError] on
    loading. *)
Definition sample_json : Json := {|
  json_dump obj :=
    if is_widget_object obj then (widget_json, None)
    else ("", Some (Exc TypeError "Object is not JSON serializable"));
  json_load text :=
    if String.eqb text widget_json then Return (inventory_to_py widget_inventory)
    else Raise (Exc JSONDecodeError "Expecting value: line 1 column 1 (char 0)")
|}.

(** The program runs where it may not create its data file. *)
Definition readonly_world : world := World (Missing false) [] [].

(** ** The record an operation works on *)

Definition op_name (o : op) : string :=
  match o with
  | Add item_name _ _ | Remove item_name _ => item_name
  end.

(** What an operation makes of the entry of its name: the record it finds
    there, if any, becomes the record it leaves, if any. *)
Definition op_effect (o : op) (found : option record) : option record :=
  match o, found with
  | Add _ qty _, Some r => Some (Rec (quantity r + qty) (price r))
  | Add _ qty unit_price, None => Some (Rec qty unit_price)
  | Remove _ _, None => None
  | Remove _ qty, Some r =>
      if bool_decide (quantity r < qty) then Some r
      else if bool_decide (quantity r - qty = 0) then None
      else Some (Rec (quantity r - qty) (price r))
  end.

(** ** Stock that is strictly positive *)

(** Every record of the mapping has a quantity above zero: a name is in the
    mapping exactly when there is stock of it. *)
Definition inventory_positive (M : inventory) : Prop :=
  map_Forall (λ _ r, 0 < quantity r) M.

(** An addition passes a quantity above zero; a removal may pass anything. *)
Definition op_positive (o : op) : Prop :=
  match o with
  | Add _ qty _ => 0 < qty
  | Remove _ _ => True
  end.

(** ** Reports and saves, continued *)

(** The line [print_data] prints for an item. *)
Definition inventory_line (entry : string * record) : list pyval :=
  [PStr entry.1; PStr ": Quantity = "; PInt (quantity entry.2);
   PStr ", Price = "; number_to_py (price entry.2)].

(** What [open(DATA_FILE, "w")] gives: [Some readable] when the file is
    created or truncated ([readable] tells whether it can be read back),
    [None] when the call is refused. *)
Definition opened_for_write (d : fnode) : option bool :=
  match d with
  | Missing true => Some true
  | Regular _ readable true => Some readable
  | Missing false | Directory | Regular _ _ false => None
  end.

(** The world once [text] has replaced the content of the file. *)
Definition written (w : world) (readable : bool) (text : string) : world :=
  World (Regular text readable true) (log w) (stdout w).

(** * The interactive shell *)

(** The builtins [int] and [float] on a line of input: the number read, or
    the [ValueError] raised. *)
Class Builtins := {
  py_int : string → outcome Z;
  py_float : string → outcome float
}.

(** A computation that reads standard input gives its value and the lines
    not yet read, unless [input] met the end of the input: the [EOFError]
    it raises then is caught nowhere in the module. *)
Inductive reading (A : Type) :=
  | Got (a : A) (rest : list string)
  | EndOfInput.
Arguments Got {A} a rest.
Arguments EndOfInput {A}.

Definition sh (A : Type) : Type := list string → py (reading A).

#[global] Instance sh_ret : MRet sh := λ A a lines, mret (Got a lines).

#[global] Instance sh_bind : MBind sh := λ A B f c lines,
  r ← c lines;
  match r with
  | Got a rest => f a rest
  | EndOfInput => mret EndOfInput
  end.

(** A computation that reads no input. *)
Definition lift {A} (c : py A) : sh A := λ lines,
  a ← c; mret (Got a lines).

(** [input(prompt)]: the prompt goes to standard output (without the
    newline that [print] adds), then one line is read. *)
Definition input (prompt : string) : sh string := λ lines,
  print [PStr prompt];;
  mret (match lines with
        | [] => EndOfInput
        | line :: rest => Got line rest
        end).

Section Shell.
Context `{codec : Json} `{builtins : Builtins}.

(** One round of the [while True] loop of [main], on the dictionary that
    [main] holds in [inventory_data]: [Some] of the dictionary to go round
    again, [None] after the [break]. *)
Definition menu_round (inventory_data : inventory) : sh (option inventory) :=
  lift (print [PStr (newline +:+ "--- Inventory Management ---")]);;
  lift (print [PStr "1. Add Item"]);;
  lift (print [PStr "2. Remove Item"]);;
  lift (print [PStr "3. View Quantity"]);;
  lift (print [PStr "4. View All Items"]);;
  lift (print [PStr "5. Check Low Stock"]);;
  lift (print [PStr "6. Save & Exit"]);;
  choice ← input "Enter choice: ";
  if String.eqb choice "1" then
    name ← input "Enter item name: ";
    text ← input "Enter quantity: ";
    qty ← lift (lift_outcome (py_int text));
    text ← input "Enter price: ";
    unit_price ← lift (lift_outcome (py_float text));
    inventory_data ←
      lift (add_item name qty (NFloat unit_price) inventory_data);
    mret (Some inventory_data)
  else if String.eqb choice "2" then
    name ← input "Enter item name: ";
    text ← input "Enter quantity to remove: ";
    qty ← lift (lift_outcome (py_int text));
    inventory_data ← lift (remove_item name qty inventory_data);
    mret (Some inventory_data)
  else if String.eqb choice "3" then
    name ← input "Enter item name: ";
    lift (print [PStr "Quantity of "; PStr name; PStr ": ";
                 PInt (get_qty name inventory_data)]);;
    mret (Some inventory_data)
  else if String.eqb choice "4" then
    lift (print_data inventory_data);;
    mret (Some inventory_data)
  else if String.eqb choice "5" then
    lift (check_low_items inventory_data);;
    mret (Some inventory_data)
  else if String.eqb choice "6" then
    lift (save_data inventory_data);;
    lift (print [PStr "Data saved. Exiting program."]);;
    mret None
  else
    lift (print [PStr "Invalid choice, try again."]);;
    mret (Some inventory_data).

(** How the loop ended: by the [break], or, in the model only, by running
    out of rounds. *)
Inductive loop_end := Exited | OutOfRounds.

(** [rounds] rounds of the loop at most. *)
Fixpoint menu_loop (rounds : nat) (inventory_data : inventory)
    : sh loop_end :=
  match rounds with
  | O => mret OutOfRounds
  | S rounds =>
      next ← menu_round inventory_data;
      match next with
      | Some inventory_data => menu_loop rounds inventory_data
      | None => mret Exited
      end
  end.

(** The loop of [main] on the lines of standard input: every round reads a
    line or ends the loop, so one round more than there are lines is
    enough. *)
Definition menu (inventory_data : inventory) : sh loop_end := λ lines,
  menu_loop (S (length lines)) inventory_data lines.
End Shell.

(** ** Samples of [json] and of the builtins for the shell *)

(** The entries of [sample_json], and the empty dictionary, which
    [json.dump] writes as two braces. *)
Definition two_entry_json : Json := {|
  json_dump obj :=
    match obj with
    | PDict [] => ("{}", None)
    | _ => @json_dump sample_json obj
    end;
  json_load text :=
    if String.eqb text "{}" then Return (PDict [])
    else @json_load sample_json text
|}.

(** [int] and [float] on the lines the sample sessions type; on every other
    line the sample builtins raise the [ValueError] of a line that is not a
    number. *)
Definition sample_builtins : Builtins := {|
  py_int text :=
    if String.eqb text "10" then Return 10
    else Raise (Exc ValueError
                  ("invalid literal for int() with base 10: '" +:+ text
                   +:+ "'"));
  py_float text :=
    if String.eqb text "2.5" then Return 2.5%float
    else Raise (Exc ValueError
                  ("could not convert string to float: '" +:+ text +:+ "'"))
|}.

(** * The [json] module of CPython, on the strings of this model *)

(** [float.__repr__] and [float] on the text of a JSON number. *)
Class FloatText := {
  float_repr : float → string;
  float_parse : string → float
}.

(** [sys.get_int_max_str_digits()] *)
Definition int_max_str_digits : Z := 4300.

(** An [int] that [str] and [int] convert: at most 4300 digits. *)
Definition int_convertible (z : Z) : bool :=
  bool_decide (Z.abs z < 10 ^ int_max_str_digits).

(** [int.__repr__] *)
Definition int_repr (z : Z) : string := NilZero.string_of_int (Z.to_int z).

Definition hex_digit (n : N) : ascii :=
  if (n <? 10)%N then ascii_of_N (48 + n) else ascii_of_N (87 + n).

(** A backslash and the character after it. *)
Definition backslashed (c : ascii) : string := String "092" (String c "").

(** The escape of one character under [ensure_ascii]. *)
Definition escape_char (c : ascii) : string :=
  let n := N_of_ascii c in
  if Ascii.eqb c "034" then backslashed "034"
  else if Ascii.eqb c "092" then backslashed "092"
  else if Ascii.eqb c "008" then backslashed "b"
  else if Ascii.eqb c "012" then backslashed "f"
  else if Ascii.eqb c "010" then backslashed "n"
  else if Ascii.eqb c "013" then backslashed "r"
  else if Ascii.eqb c "009" then backslashed "t"
  else if ((n <? 32) || (126 <? n))%N then
    backslashed "u" +:+ "00" +:+
    String (hex_digit (n / 16)) (String (hex_digit (n mod 16)) "")
  else String c "".

Fixpoint escape (s : string) : string :=
  match s with
  | "" => ""
  | String c s' => escape_char c +:+ escape s'
  end.

(** [encode_basestring_ascii] *)
Definition encode_str (s : string) : string := dquote +:+ escape s +:+ dquote.

Section Encoder.
Context `{FloatText}.

(** What an encoder has written, and the exception that stopped it. *)
Definition emit (text : string) : string * option exc := (text, None).

Definition then_ (a b : string * option exc) : string * option exc :=
  match a.2 with
  | Some e => a
  | None => (a.1 +:+ b.1, b.2)
  end.

Definition floatstr (f : float) : string :=
  if PrimFloat.is_nan f then "NaN"
  else if PrimFloat.eqb f infinity then "Infinity"
  else if PrimFloat.eqb f neg_infinity then "-Infinity"
  else float_repr f.

Definition intstr (z : Z) : string * option exc :=
  if int_convertible z then emit (int_repr z)
  else ("", Some (Exc ValueError
    "Exceeds the limit (4300 digits) for integer string conversion; use sys.set_int_max_str_digits() to increase the limit")).

(** The one chunk of a value that is no list and no dictionary. *)
Definition dump_scalar (obj : pyval) : option (string * option exc) :=
  match obj with
  | PNone => Some (emit "null")
  | PBool true => Some (emit "true")
  | PBool false => Some (emit "false")
  | PInt z => Some (intstr z)
  | PFloat f => Some (emit (floatstr f))
  | PStr s => Some (emit (encode_str s))
  | PList _ | PDict _ => None
  end.

Fixpoint spaces (n : nat) : string :=
  match n with O => "" | S n => String " " (spaces n) end.

Definition newline_indent (level : nat) : string :=
  newline +:+ spaces (4 * level).

Fixpoint dump_value (level : nat) (obj : pyval) {struct obj}
    : string * option exc :=
  match obj with
  | PList [] => emit "[]"
  | PList (x :: xs) =>
      let element (buf : string) (y : pyval) :=
        match dump_scalar y with
        | Some (text, None) => emit (buf +:+ text)
        | Some (_, Some e) => ("", Some e)
        | None => then_ (emit buf) (dump_value (S level) y)
        end in
      then_ (element ("[" +:+ newline_indent (S level)) x)
        (then_
           ((fix rest (ys : list pyval) : string * option exc :=
               match ys with
               | [] => emit ""
               | y :: ys' =>
                   then_ (match dump_scalar y with
                          | Some (text, None) =>
                              emit (("," +:+ newline_indent (S level)) +:+ text)
                          | Some (_, Some e) => ("", Some e)
                          | None =>
                              then_ (emit ("," +:+ newline_indent (S level)))
                                (dump_value (S level) y)
                          end)
                     (rest ys')
               end) xs)
           (then_ (emit (newline_indent level)) (emit "]")))
  | PDict [] => emit "{}"
  | PDict ((k, v) :: items) =>
      then_ (emit "{")
        (then_ (emit (newline_indent (S level)))
           (then_ (emit (encode_str k))
              (then_ (emit ": ")
                 (then_ (dump_value (S level) v)
                    (then_
                       ((fix rest (kvs : list (string * pyval))
                           : string * option exc :=
                           match kvs with
                           | [] => emit ""
                           | (k', v') :: kvs' =>
                               then_ (emit ("," +:+ newline_indent (S level)))
                                 (then_ (emit (encode_str k'))
                                    (then_ (emit ": ")
                                       (then_ (dump_value (S level) v')
                                          (rest kvs'))))
                           end) items)
                       (then_ (emit (newline_indent level)) (emit "}")))))))
  | _ =>
      match dump_scalar obj with
      | Some out => out
      | None => emit ""
      end
  end.
End Encoder.


(** ** Decoding *)

(** A scanner gives a value and the text after it, or the message of a
    [JSONDecodeError] and the text from the place of the error on; the
    last case is an [int] literal of more than 4300 digits, for which
    [int] raises [ValueError]. *)
Inductive scanned (A : Type) :=
  | Scanned (a : A) (rest : string)
  | Expected (msg : string) (at_ : string)
  | TooManyDigits (digits : nat).
Arguments Scanned {A} a rest.
Arguments Expected {A} msg at_.
Arguments TooManyDigits {A} digits.

Definition is_ws (c : ascii) : bool :=
  Ascii.eqb c " " || Ascii.eqb c "009" || Ascii.eqb c "010" || Ascii.eqb c "013".

Definition is_digit (c : ascii) : bool :=
  let n := N_of_ascii c in ((48 <=? n) && (n <=? 57))%N.

Fixpoint skip_ws (s : string) : string :=
  match s with
  | String c s' => if is_ws c then skip_ws s' else s
  | "" => ""
  end.

(** The longest run of digits at the head of [s], and what follows. *)
Fixpoint span_digits (s : string) : string * string :=
  match s with
  | String c s' =>
      if is_digit c then
        let '(ds, rest) := span_digits s' in (String c ds, rest)
      else ("", s)
  | "" => ("", "")
  end.

Definition hex_value (c : ascii) : option N :=
  let n := N_of_ascii c in
  if ((48 <=? n) && (n <=? 57))%N then Some (n - 48)%N
  else if ((97 <=? n) && (n <=? 102))%N then Some (n - 87)%N
  else if ((65 <=? n) && (n <=? 70))%N then Some (n - 55)%N
  else None.

(** The code of [\uXXXX]. *)
Definition hex4 (a b c d : ascii) : option N :=
  match hex_value a, hex_value b, hex_value c, hex_value d with
  | Some x, Some y, Some z, Some t => Some (((x * 16 + y) * 16 + z) * 16 + t)%N
  | _, _, _, _ => None
  end.

(** The character a one-letter escape stands for. *)
Definition unescape (c : ascii) : option ascii :=
  if Ascii.eqb c "034" then Some "034"%char
  else if Ascii.eqb c "092" then Some "092"%char
  else if Ascii.eqb c "/" then Some "/"%char
  else if Ascii.eqb c "b" then Some "008"%char
  else if Ascii.eqb c "f" then Some "012"%char
  else if Ascii.eqb c "n" then Some "010"%char
  else if Ascii.eqb c "r" then Some "013"%char
  else if Ascii.eqb c "t" then Some "009"%char
  else None.

Definition scanned_cons (c : ascii) (r : scanned string) : scanned string :=
  match r with
  | Scanned s rest => Scanned (String c s) rest
  | Expected msg at_ => Expected msg at_
  | TooManyDigits n => TooManyDigits n
  end.

(** [scanstring], strict, after the opening quote; [start] is the text
    from that quote on.  An escape above 00ff names a character that the
    strings of this model do not have: the model refuses it as it refuses
    an escape that is no escape. *)
Fixpoint scanstring (start s : string) : scanned string :=
  match s with
  | "" => Expected "Unterminated string starting at" start
  | String c s' =>
      if Ascii.eqb c "034" then Scanned "" s'
      else if Ascii.eqb c "092" then
        match s' with
        | "" => Expected "Unterminated string starting at" start
        | String e s'' =>
            if Ascii.eqb e "u" then
              match s'' with
              | String h1 (String h2 (String h3 (String h4 (String _ _ as s4)))) =>
                  match hex4 h1 h2 h3 h4 with
                  | Some code =>
                      if (code <? 256)%N then
                        scanned_cons (ascii_of_N code) (scanstring start s4)
                      else Expected "Invalid \uXXXX escape" s'
                  | None => Expected "Invalid \uXXXX escape" s'
                  end
              | _ => Expected "Invalid \uXXXX escape" s'
              end
            else
              match unescape e with
              | Some c' => scanned_cons c' (scanstring start s'')
              | None => Expected "Invalid \escape" s
              end
        end
      else if (N_of_ascii c <? 32)%N then
        Expected "Invalid control character at" s
      else scanned_cons c (scanstring start s')
  end.

(** The number at the head of [s], as the scanner of [json] matches it:
    an optional minus, then 0 or a digit from 1 to 9 and more digits (the
    integer); then, if it is there, a point and digits (the fraction);
    then, if it is there, e or E, an optional sign and digits (the
    exponent).  Each part is as long as it can be. *)
Definition scan_unsigned (sign s1 : string) : option (string * string) :=
  match s1 with
  | String c rest =>
      if Ascii.eqb c "0" then Some (sign +:+ "0", rest)
      else if is_digit c then
        let '(ds, rest') := span_digits rest in
        Some (sign +:+ String c ds, rest')
      else None
  | "" => None
  end.

Definition scan_integer (s : string) : option (string * string) :=
  match s with
  | String c s' =>
      if Ascii.eqb c "-" then scan_unsigned "-" s' else scan_unsigned "" s
  | "" => None
  end.

Definition scan_fraction (s : string) : string * string :=
  match s with
  | String c s' =>
      if Ascii.eqb c "." then
        match span_digits s' with
        | ("", _) => ("", s)
        | (ds, rest) => (String c ds, rest)
        end
      else ("", s)
  | "" => ("", s)
  end.

Definition scan_exponent (s : string) : string * string :=
  match s with
  | String c s' =>
      if Ascii.eqb c "e" || Ascii.eqb c "E" then
        let '(sign, s1) :=
          match s' with
          | String d s'' =>
              if Ascii.eqb d "-" || Ascii.eqb d "+" then (String d "", s'')
              else ("", s')
          | "" => ("", s')
          end in
        match span_digits s1 with
        | ("", _) => ("", s)
        | (ds, rest) => (String c (sign +:+ ds), rest)
        end
      else ("", s)
  | "" => ("", s)
  end.

Definition scan_number (s : string)
    : option (string * string * string * string) :=
  match scan_integer s with
  | None => None
  | Some (integer, s1) =>
      let '(frac, s2) := scan_fraction s1 in
      let '(exp, s3) := scan_exponent s2 in
      Some (integer, frac, exp, s3)
  end.

(** [int] on the integer matched by [scan_integer]. *)
Definition int_of_text (integer : string) : Z :=
  match NilZero.int_of_string integer with
  | Some d => Z.of_int d
  | None => 0
  end.

(** [s] starts with [prefix]: what follows it. *)
Fixpoint after_prefix (prefix s : string) : option string :=
  match prefix, s with
  | "", _ => Some s
  | String a prefix', String b s' =>
      if Ascii.eqb a b then after_prefix prefix' s' else None
  | String _ _, "" => None
  end.

(** [dict(pairs)]: a key met again keeps its place and takes the new
    value. *)
Fixpoint dict_set (k : string) (v : pyval) (d : list (string * pyval))
    : list (string * pyval) :=
  match d with
  | [] => [(k, v)]
  | (k', v') :: d' =>
      if String.eqb k k' then (k, v) :: d' else (k', v') :: dict_set k v d'
  end.

Definition dict_of_pairs (pairs : list (string * pyval))
    : list (string * pyval) :=
  foldl (λ d kv, dict_set kv.1 kv.2 d) [] pairs.

(** [s] starts with the character [c]: what follows it. *)
Definition after_char (c : ascii) (s : string) : option string :=
  match s with
  | String x rest => if Ascii.eqb x c then Some rest else None
  | "" => None
  end.

Section Decoder.
Context `{FloatText}.

(** The number matched at the head of [s], converted. *)
Definition scan_number_value (s : string) : option (scanned pyval) :=
  match scan_number s with
  | None => None
  | Some (integer, "", "", rest) =>
      if int_convertible (int_of_text integer) then
        Some (Scanned (PInt (int_of_text integer)) rest)
      else
        Some (TooManyDigits
                (String.length integer
                 - match after_prefix "-" integer with
                   | Some _ => 1
                   | None => 0
                   end)%nat)
  | Some (integer, frac, exp, rest) =>
      Some (Scanned (PFloat (float_parse (integer +:+ frac +:+ exp))) rest)
  end.

(** A word of JSON at the head of [s]. *)
Definition scan_word (word : string) (obj : pyval) (s : string)
    : option (scanned pyval) :=
  match after_prefix word s with
  | Some rest => Some (Scanned obj rest)
  | None => None
  end.

(** [scan_once] at the head of [s], and the loops of the scanner over the
    members of an object and the elements of an array.  [depth] bounds the
    calls; [json_loads] gives more of it than the text has characters, so
    it is never used up.  (CPython gives up on a text nested a thousand
    deep or so with [RecursionError]; what [save_data] writes nests
    twice.) *)
Fixpoint scan_once (depth : nat) (s : string) : scanned pyval :=
  match depth with
  | O => Expected "Expecting value" s
  | S depth =>
      match s with
      | "" => Expected "Expecting value" s
      | String c s' =>
          if Ascii.eqb c "034" then
            match scanstring s s' with
            | Scanned str rest => Scanned (PStr str) rest
            | Expected msg at_ => Expected msg at_
            | TooManyDigits n => TooManyDigits n
            end
          else if Ascii.eqb c "{" then
            match after_char "}" (skip_ws s') with
            | Some rest => Scanned (PDict []) rest
            | None =>
                match scan_members depth (skip_ws s') with
                | Scanned pairs rest =>
                    Scanned (PDict (dict_of_pairs pairs)) rest
                | Expected msg at_ => Expected msg at_
                | TooManyDigits n => TooManyDigits n
                end
            end
          else if Ascii.eqb c "[" then
            match after_char "]" (skip_ws s') with
            | Some rest => Scanned (PList []) rest
            | None =>
                match scan_elements depth (skip_ws s') with
                | Scanned values rest => Scanned (PList values) rest
                | Expected msg at_ => Expected msg at_
                | TooManyDigits n => TooManyDigits n
                end
            end
          else
            let word :=
              if Ascii.eqb c "n" then scan_word "null" PNone s
              else if Ascii.eqb c "t" then scan_word "true" (PBool true) s
              else if Ascii.eqb c "f" then scan_word "false" (PBool false) s
              else if Ascii.eqb c "N" then scan_word "NaN" (PFloat nan) s
              else if Ascii.eqb c "I" then
                scan_word "Infinity" (PFloat infinity) s
              else if Ascii.eqb c "-" then
                scan_word "-Infinity" (PFloat neg_infinity) s
              else None in
            match word with
            | Some r => r
            | None =>
                match scan_number_value s with
                | Some r => r
                | None => Expected "Expecting value" s
                end
            end
      end
  end

with scan_members (depth : nat) (s : string)
    : scanned (list (string * pyval)) :=
  match depth with
  | O => Expected "Expecting value" s
  | S depth =>
      match after_char "034" s with
      | None =>
          Expected "Expecting property name enclosed in double quotes" s
      | Some s' =>
          match scanstring s s' with
          | Expected msg at_ => Expected msg at_
          | TooManyDigits n => TooManyDigits n
          | Scanned key s1 =>
              match after_char ":" (skip_ws s1) with
              | None => Expected "Expecting ':' delimiter" (skip_ws s1)
              | Some s2 =>
                  match scan_once depth (skip_ws s2) with
                  | Expected msg at_ => Expected msg at_
                  | TooManyDigits n => TooManyDigits n
                  | Scanned value s3 =>
                      match after_char "}" (skip_ws s3) with
                      | Some rest => Scanned [(key, value)] rest
                      | None =>
                          match after_char "," (skip_ws s3) with
                          | None =>
                              Expected "Expecting ',' delimiter" (skip_ws s3)
                          | Some s4 =>
                              match scan_members depth (skip_ws s4) with
                              | Scanned pairs rest =>
                                  Scanned ((key, value) :: pairs) rest
                              | other => other
                              end
                          end
                      end
                  end
              end
          end
      end
  end

with scan_elements (depth : nat) (s : string) : scanned (list pyval) :=
  match depth with
  | O => Expected "Expecting value" s
  | S depth =>
      match scan_once depth s with
      | Expected msg at_ => Expected msg at_
      | TooManyDigits n => TooManyDigits n
      | Scanned value s1 =>
          match after_char "]" (skip_ws s1) with
          | Some rest => Scanned [value] rest
          | None =>
              match after_char "," (skip_ws s1) with
              | None => Expected "Expecting ',' delimiter" (skip_ws s1)
              | Some s2 =>
                  match scan_elements depth (skip_ws s2) with
                  | Scanned values rest => Scanned (value :: values) rest
                  | other => other
                  end
              end
          end
      end
  end.

(** The message of a [JSONDecodeError] at the place where [at_] starts in
    [doc]: the line, the column and the index of the place. *)
Definition nat_text (n : nat) : string :=
  NilZero.string_of_uint (Nat.to_uint n).

Fixpoint string_take (n : nat) (s : string) : string :=
  match n, s with
  | S n, String c s' => String c (string_take n s')
  | _, _ => ""
  end.

(** The line and the column after the text [before]. *)
Fixpoint line_column (line column : nat) (before : string) : nat * nat :=
  match before with
  | "" => (line, column)
  | String c before' =>
      if Ascii.eqb c "010" then line_column (S line) 1 before'
      else line_column line (S column) before'
  end.

Definition json_decode_error (msg doc at_ : string) : exc :=
  let pos := (String.length doc - String.length at_)%nat in
  let '(line, column) := line_column 1 1 (string_take pos doc) in
  Exc JSONDecodeError
    (msg +:+ ": line " +:+ nat_text line +:+ " column " +:+ nat_text column
     +:+ " (char " +:+ nat_text pos +:+ ")").

(** [json.loads] on the text of the file. *)
Definition json_loads (doc : string) : outcome pyval :=
  match scan_once (S (String.length doc)) (skip_ws doc) with
  | Scanned obj rest =>
      match skip_ws rest with
      | "" => Return obj
      | at_ => Raise (json_decode_error "Extra data" doc at_)
      end
  | Expected msg at_ => Raise (json_decode_error msg doc at_)
  | TooManyDigits digits =>
      Raise (Exc ValueError
        ("Exceeds the limit (4300 digits) for integer string conversion: value has "
         +:+ nat_text digits
         +:+ " digits; use sys.set_int_max_str_digits() to increase the limit"))
  end.

(** The [json] module as the persistence adapter calls it. *)
Definition python_json : Json := {|
  json_load := json_loads;
  json_dump := dump_value 0
|}.
End Decoder.

(** ** The text of an inventory *)

(** The text after a value in what [json.dump] writes: a comma or a new
    line. *)
Definition delimited (rest : string) : Prop :=
  ∃ c rest', rest = String c rest' ∧ (c = ","%char ∨ c = "010"%char).

(** A text of [float.__repr__]: a JSON number with a fraction or an
    exponent, all of it. *)
Definition json_float_text (t : string) : bool :=
  match scan_number t with
  | Some (_, "", "", _) => false
  | Some (_, _, _, "") => true
  | _ => false
  end.

(** The members of an object, each with the text of its value. *)
Fixpoint members_text (level : nat) (members : list (string * pyval * string))
    : string :=
  match members with
  | [] => ""
  | (k, _, text) :: members' =>
      encode_str k +:+ ": " +:+ text +:+
      match members' with
      | [] => ""
      | _ :: _ => "," +:+ newline_indent level +:+ members_text level members'
      end
  end.

Definition object_text (level : nat) (members : list (string * pyval * string))
    : string :=
  "{" +:+ newline_indent (S level) +:+ members_text (S level) members
  +:+ newline_indent level +:+ "}".

Definition member_pair (m : string * pyval * string) : string * pyval :=
  (m.1.1, m.1.2).

Section InventoryText.
Context `{FloatText}.

(** [text] is what is read back as [v], at any depth from [depth0] on and
    before any delimiter. *)
Definition scans_as (depth0 : nat) (text : string) (v : pyval) : Prop :=
  ∀ depth rest,
    (depth0 ≤ depth)%nat →
    delimited rest →
    skip_ws (text +:+ rest) = text +:+ rest ∧
    scan_once depth (text +:+ rest) = Scanned v rest.

(** The members of a dictionary after the first, as [json.dump] writes
    them. *)
Definition dump_members (level : nat)
    : list (string * pyval) → string * option exc :=
  fix rest (kvs : list (string * pyval)) : string * option exc :=
    match kvs with
    | [] => emit ""
    | (k', v') :: kvs' =>
        then_ (emit ("," +:+ newline_indent (S level)))
          (then_ (emit (encode_str k'))
             (then_ (emit ": ")
                (then_ (dump_value (S level) v')
                   (rest kvs'))))
    end.

(** [float] reads the text of [f] back as [f], and the text is a JSON
    number. *)
Definition float_reads_back (f : float) : Prop :=
  json_float_text (float_repr f) = true ∧ float_parse (float_repr f) = f.

(** A number that [json] writes and reads back: an integer of at most 4300
    digits, a float whose text is read back. *)
Definition number_storable (x : number) : Prop :=
  match x with
  | NInt z => z < 10 ^ int_max_str_digits
  | NFloat f => PrimFloat.is_finite f = true → float_reads_back f
  end.

Definition record_storable (r : record) : Prop :=
  quantity r < 10 ^ int_max_str_digits ∧ number_storable (price r).

Definition inventory_storable (M : inventory) : Prop :=
  map_Forall (λ _ r, record_storable r) M.

(** What [json.dump] writes for a number, a record and an inventory. *)
Definition number_text (x : number) : string :=
  match x with
  | NInt z => int_repr z
  | NFloat f => floatstr f
  end.

Definition record_members (r : record) : list (string * pyval * string) :=
  [("quantity", PInt (quantity r), int_repr (quantity r));
   ("price", number_to_py (price r), number_text (price r))].

Definition inventory_members (M : inventory)
    : list (string * pyval * string) :=
  (λ kr, (kr.1, record_to_py kr.2, object_text 1 (record_members kr.2)))
    <$> map_to_list M.
End InventoryText.

(** [float.__repr__] and [float] on the prices of the sample data; on any
    other float and any other text the sample gives zero. *)
Definition sample_float_text : FloatText := {|
  float_repr f :=
    if PrimFloat.eqb f 2.5 then "2.5"
    else if PrimFloat.eqb f 1 then "1.0"
    else "0.0";
  float_parse text :=
    if String.eqb text "2.5" then 2.5%float
    else if String.eqb text "1.0" then 1%float
    else 0%float
|}.

(** An inventory with a quantity of 4301 digits. *)
Definition huge_inventory : inventory :=
  {["Widget" := Rec (10 ^ int_max_str_digits) (NFloat 2.5)]}.

(** * Properties *)

(** ** Running the store operations *)

Ltac py_unfold :=
  repeat progress
    (unfold mbind, py_bind, mret, py_ret, raise, logging, print, getitem,
       delitem; simpl).

Lemma add_item_run (M : inventory) n q p w :
  add_item n q p M w =
    match M !! n with
    | Some r =>
        (Return (<[n := Rec (quantity r + q) (price r)]> M),
         logged w INFO "Increased quantity for %s by %d" [PStr n; PInt q])
    | None =>
        (Return (<[n := Rec q p]> M),
         logged w INFO "Added new item %s with quantity %d" [PStr n; PInt q])
    end.
Proof.
  unfold add_item. case_bool_decide as Hin.
  - apply elem_of_dom in Hin as [r Hr]. py_unfold. by rewrite Hr.
  - apply not_elem_of_dom in Hin. by rewrite Hin.
Qed.

Lemma remove_item_run (M : inventory) n q w :
  remove_item n q M w =
    match M !! n with
    | None =>
        (Return M,
         logged w WARNING "Attempted to remove %s but item not found" [PStr n])
    | Some r =>
        if bool_decide (quantity r < q) then
          (Return M,
           logged w WARNING "Cannot remove %d of %s; only %d in stock"
             [PInt q; PStr n; PInt (quantity r)])
        else if bool_decide (quantity r - q = 0) then
          (Return (delete n M),
           logged (logged w INFO "Removed %d of %s" [PInt q; PStr n])
             INFO "Item %s is now out of stock and removed" [PStr n])
        else
          (Return (<[n := Rec (quantity r - q) (price r)]> M),
           logged w INFO "Removed %d of %s" [PInt q; PStr n])
    end.
Proof.
  unfold remove_item. case_bool_decide as Hin.
  - apply not_elem_of_dom in Hin. by rewrite Hin.
  - apply elem_of_dom in Hin as [r Hr]. py_unfold. rewrite Hr.
    case_bool_decide; [done |]. rewrite lookup_insert_eq. py_unfold.
    case_bool_decide; [| done]. by rewrite delete_insert_eq.
Qed.

(** The scenario of the specification: two additions of ["Widget"] give a
    quantity of 15 and leave the price of the first addition. *)
Example widget_scenario :
  (M ← add_item "Widget" 10 (NFloat 2.5) ∅;
   add_item "Widget" 5 (NFloat 9.99) M) fresh_world
  = (Return {["Widget" := Rec 15 (NFloat 2.5)]},
     World (Missing true)
       [LogRecord INFO "Added new item %s with quantity %d"
          [PStr "Widget"; PInt 10];
        LogRecord INFO "Increased quantity for %s by %d"
          [PStr "Widget"; PInt 5]]
       []).
Proof. reflexivity. Qed.

(** The scenario of the specification: adding three ["Gadget"] and removing
    three leaves no record, and [get_qty] answers 0. *)
Example gadget_scenario :
  (M ← add_item "Gadget" 3 (NFloat 1) ∅;
   remove_item "Gadget" 3 M) fresh_world
  = (Return ∅,
     World (Missing true)
       [LogRecord INFO "Added new item %s with quantity %d"
          [PStr "Gadget"; PInt 3];
        LogRecord INFO "Removed %d of %s" [PInt 3; PStr "Gadget"];
        LogRecord INFO "Item %s is now out of stock and removed"
          [PStr "Gadget"]]
       [])
  ∧ get_qty "Gadget" ∅ = 0.
Proof. split; reflexivity. Qed.

(** ** The inventory store *)

(** C1: for every mapping, item name, quantity [q > 0] and price [p >= 0],
    [add_item] returns normally and afterwards [get_qty] of the name is the
    quantity stored before (0 when the name was absent) plus [q]. *)
Theorem add_item_get_qty (M : inventory) n q p w :
  0 < q →
  number_nonneg p = true →
  ∃ M' w',
    add_item n q p M w = (Return M', w') ∧
    get_qty n M' = get_qty n M + q.
Proof.
  intros _ _. rewrite add_item_run. unfold get_qty.
  destruct (M !! n) as [r|]; eexists _, _; (split; [done |]);
    by rewrite lookup_insert_eq.
Qed.

(** The second addition of the ["Widget"] scenario. *)
Lemma add_item_get_qty_witness :
  0 < 5 ∧ number_nonneg (NFloat 9.99) = true ∧
  ∃ M' w',
    add_item "Widget" 5 (NFloat 9.99) widget_inventory fresh_world
      = (Return M', w') ∧
    get_qty "Widget" M' = get_qty "Widget" widget_inventory + 5.
Proof.
  split; [lia |]. split; [reflexivity |].
  apply (add_item_get_qty widget_inventory "Widget" 5 (NFloat 9.99));
    [lia | reflexivity].
Defined.

(** C2: when the item name already exists, [add_item] leaves the price of
    its record as it was, whatever price is passed: the outcome of the call
    does not depend on the price argument at all. *)
Theorem add_item_existing_keeps_price (M : inventory) n r q p w :
  M !! n = Some r →
  (∃ M' w',
     add_item n q p M w = (Return M', w') ∧
     M' !! n = Some (Rec (quantity r + q) (price r))) ∧
  (∀ p', add_item n q p' M w = add_item n q p M w).
Proof.
  intros Hr. split.
  - rewrite add_item_run, Hr. eexists _, _. split; [done |].
    by rewrite lookup_insert_eq.
  - intros p'. by rewrite !add_item_run, Hr.
Qed.

(** The second addition of the ["Widget"] scenario: the price stays 2.5,
    whatever is passed in place of 9.99. *)
Lemma add_item_existing_keeps_price_witness :
  widget_inventory !! "Widget" = Some (Rec 10 (NFloat 2.5)) ∧
  (∃ M' w',
     add_item "Widget" 5 (NFloat 9.99) widget_inventory fresh_world
       = (Return M', w') ∧
     M' !! "Widget" = Some (Rec (10 + 5) (NFloat 2.5))) ∧
  (∀ p', add_item "Widget" 5 p' widget_inventory fresh_world
         = add_item "Widget" 5 (NFloat 9.99) widget_inventory fresh_world).
Proof.
  split; [reflexivity |].
  apply (add_item_existing_keeps_price widget_inventory "Widget"
           (Rec 10 (NFloat 2.5)) 5 (NFloat 9.99) fresh_world).
  reflexivity.
Defined.

(** The price argument is the price of a record that [add_item] creates. *)
Lemma add_item_new_uses_price (M : inventory) n q p w :
  M !! n = None →
  ∃ M' w',
    add_item n q p M w = (Return M', w') ∧ M' !! n = Some (Rec q p).
Proof.
  intros Hn. rewrite add_item_run, Hn. eexists _, _. split; [done |].
  by rewrite lookup_insert_eq.
Qed.

(** C3: for a quantity [q > 0], when the name is absent or its stored
    quantity is below [q], [remove_item] returns normally with the mapping
    unchanged, and the only effect is one more log record, of level
    WARNING. *)
Theorem remove_item_refused (M : inventory) n q w :
  0 < q →
  (M !! n = None ∨ ∃ r, M !! n = Some r ∧ quantity r < q) →
  ∃ fmt args,
    remove_item n q M w = (Return M, logged w WARNING fmt args).
Proof.
  intros _ [Hn | (r & Hr & Hlt)]; rewrite remove_item_run.
  - rewrite Hn. by eexists _, _.
  - rewrite Hr, bool_decide_true by done. by eexists _, _.
Qed.

(** Eleven ["Widget"] asked of a stock of ten. *)
Lemma remove_item_refused_witness :
  0 < 11 ∧
  (widget_inventory !! "Widget" = None ∨
   ∃ r, widget_inventory !! "Widget" = Some r ∧ quantity r < 11) ∧
  ∃ fmt args,
    remove_item "Widget" 11 widget_inventory fresh_world
      = (Return widget_inventory, logged fresh_world WARNING fmt args).
Proof.
  assert (Hlow : widget_inventory !! "Widget" = None ∨
    ∃ r, widget_inventory !! "Widget" = Some r ∧ quantity r < 11).
  { right. exists (Rec 10 (NFloat 2.5)). split; [reflexivity | simpl; lia]. }
  split; [lia |]. split; [exact Hlow |].
  apply (remove_item_refused widget_inventory "Widget" 11 fresh_world);
    [lia | exact Hlow].
Defined.

(** C4: when the name is present with stored quantity [s > 0], removing
    exactly [s] returns normally with the record of the name deleted, and
    [get_qty] of the name is 0 afterwards. *)
Theorem remove_item_all_deletes (M : inventory) n r w :
  M !! n = Some r →
  0 < quantity r →
  ∃ w',
    remove_item n (quantity r) M w = (Return (delete n M), w') ∧
    delete n M !! n = None ∧
    get_qty n (delete n M) = 0.
Proof.
  intros Hr _. rewrite remove_item_run, Hr.
  rewrite bool_decide_false by lia. rewrite bool_decide_true by lia.
  eexists. split; [done |]. unfold get_qty. by rewrite lookup_delete_eq.
Qed.

(** The ["Gadget"] scenario: all three removed. *)
Lemma remove_item_all_deletes_witness :
  gadget_inventory !! "Gadget" = Some (Rec 3 (NFloat 1)) ∧
  0 < 3 ∧
  ∃ w',
    remove_item "Gadget" 3 gadget_inventory fresh_world
      = (Return (delete "Gadget" gadget_inventory), w') ∧
    delete "Gadget" gadget_inventory !! "Gadget" = None ∧
    get_qty "Gadget" (delete "Gadget" gadget_inventory) = 0.
Proof.
  split; [reflexivity |]. split; [lia |].
  apply (remove_item_all_deletes gadget_inventory "Gadget"
           (Rec 3 (NFloat 1)) fresh_world); [reflexivity | simpl; lia].
Defined.

(** C10: [add_item] and [remove_item] on a name touch no other key: under
    every other key the mapping holds after the call what it held before
    (the same record, or none). *)
Theorem add_remove_frame (M : inventory) n q p w k :
  k ≠ n →
  (∃ M' w', add_item n q p M w = (Return M', w') ∧ M' !! k = M !! k) ∧
  (∃ M' w', remove_item n q M w = (Return M', w') ∧ M' !! k = M !! k).
Proof.
  intros Hk. split.
  - rewrite add_item_run.
    destruct (M !! n); eexists _, _; (split; [done |]);
      by rewrite lookup_insert_ne.
  - rewrite remove_item_run.
    destruct (M !! n) as [r|]; [| by eexists _, _].
    repeat case_bool_decide; eexists _, _; (split; [done |]); [done | |].
    + by rewrite lookup_delete_ne.
    + by rewrite lookup_insert_ne.
Qed.

(** Operations on ["Widget"] in an inventory that holds ["Gadget"]. *)
Lemma add_remove_frame_witness :
  "Gadget" ≠ "Widget" ∧
  (∃ M' w',
     add_item "Widget" 5 (NFloat 9.99) gadget_inventory fresh_world
       = (Return M', w') ∧
     M' !! "Gadget" = gadget_inventory !! "Gadget") ∧
  (∃ M' w',
     remove_item "Widget" 5 gadget_inventory fresh_world = (Return M', w') ∧
     M' !! "Gadget" = gadget_inventory !! "Gadget").
Proof.
  assert (Hne : "Gadget" ≠ "Widget") by discriminate.
  split; [exact Hne |].
  exact (add_remove_frame gadget_inventory "Widget" 5 (NFloat 9.99)
           fresh_world "Gadget" Hne).
Defined.

(** ** Invariants of the store *)

(** [add_item] stores a quantity of zero as it stores any other. *)
Example zero_inventory_added :
  (add_item "Widget" 0 (NFloat 2.5) ∅ fresh_world).1 = Return zero_inventory.
Proof. reflexivity. Qed.

(** C6, as stated, fails: a record that already has quantity 0 survives a
    call of [remove_item]; here the call is refused for lack of stock and
    the record stays in the mapping, at zero. *)
Lemma remove_item_zero_record_counterexample :
  remove_item "Widget" 1 zero_inventory fresh_world
    = (Return zero_inventory,
       logged fresh_world WARNING "Cannot remove %d of %s; only %d in stock"
         [PInt 1; PStr "Widget"; PInt 0]) ∧
  quantity <$> zero_inventory !! "Widget" = Some 0 ∧
  ¬ no_zero_quantity zero_inventory.
Proof.
  split; [reflexivity |]. split; [reflexivity |].
  intros HM. by apply (HM "Widget" (Rec 0 (NFloat 2.5))).
Qed.

(** C6, amended: when no record of the mapping has quantity 0 before a call
    of [remove_item], none has afterwards: the record whose quantity the
    call brings to 0 is deleted, not kept. *)
Theorem remove_item_no_zero_quantity (M : inventory) n q w :
  no_zero_quantity M →
  ∃ M' w',
    remove_item n q M w = (Return M', w') ∧ no_zero_quantity M'.
Proof.
  intros HM. rewrite remove_item_run.
  destruct (M !! n) as [r|] eqn:Hr; [| by eexists _, _].
  case_bool_decide; [by eexists _, _ |].
  case_bool_decide as Hz; eexists _, _; (split; [done |]).
  - by apply map_Forall_delete.
  - by apply map_Forall_insert_2.
Qed.

(** The whole stock of ["Widget"] removed: the record goes. *)
Lemma remove_item_no_zero_quantity_witness :
  no_zero_quantity widget_inventory ∧
  ∃ M' w',
    remove_item "Widget" 10 widget_inventory fresh_world = (Return M', w') ∧
    no_zero_quantity M'.
Proof.
  assert (HM : no_zero_quantity widget_inventory).
  { apply map_Forall_singleton. discriminate. }
  split; [exact HM |].
  exact (remove_item_no_zero_quantity widget_inventory "Widget" 10
           fresh_world HM).
Defined.

(** Whatever the mapping holds elsewhere, a removal that is carried out
    never leaves the record of its own name at quantity 0. *)
Lemma remove_item_own_record_not_zero (M : inventory) n q r w :
  M !! n = Some r →
  q ≤ quantity r →
  ∃ M' w',
    remove_item n q M w = (Return M', w') ∧
    ∀ r', M' !! n = Some r' → quantity r' ≠ 0.
Proof.
  intros Hr Hq. rewrite remove_item_run, Hr.
  rewrite bool_decide_false by lia.
  case_bool_decide as Hz; eexists _, _; (split; [done |]); intros r'.
  - by rewrite lookup_delete_eq.
  - rewrite lookup_insert_eq. by intros [= <-].
Qed.

(** C5, as stated, fails: [add_item] stores the quantity and the price it
    is passed without looking at their sign, so one addition to the empty
    mapping reaches a record whose quantity and price are both negative. *)
Lemma run_ops_negative_counterexample :
  run_ops [Add "Widget" (-1) (NFloat (-2.5))] ∅ fresh_world
    = (Return {["Widget" := Rec (-1) (NFloat (-2.5))]},
       logged fresh_world INFO "Added new item %s with quantity %d"
         [PStr "Widget"; PInt (-1)]) ∧
  ¬ inventory_nonneg {["Widget" := Rec (-1) (NFloat (-2.5))]}.
Proof.
  split; [reflexivity |].
  intros HM. apply map_Forall_singleton in HM as [Hq _]. simpl in Hq. lia.
Qed.

Lemma apply_op_nonneg (M : inventory) o w :
  inventory_nonneg M →
  op_nonneg o →
  ∃ M' w', apply_op o M w = (Return M', w') ∧ inventory_nonneg M'.
Proof.
  intros HM Ho. destruct o as [n q p | n q]; simpl.
  - destruct Ho as [Hq Hp]. rewrite add_item_run.
    destruct (M !! n) as [r|] eqn:Hr; eexists _, _; (split; [done |]);
      apply map_Forall_insert_2; try done.
    destruct (HM n r Hr) as [Hqr Hpr]. split; simpl; [lia | done].
  - rewrite remove_item_run.
    destruct (M !! n) as [r|] eqn:Hr; [| by eexists _, _].
    case_bool_decide as Hlt; [by eexists _, _ |].
    case_bool_decide as Hz; eexists _, _; (split; [done |]).
    + by apply map_Forall_delete.
    + apply map_Forall_insert_2; [| done].
      destruct (HM n r Hr) as [_ Hpr]. split; simpl; [lia | done].
Qed.

(** C5, amended: starting from a mapping whose records have non-negative
    quantity and price (the empty one, for instance), every sequence of
    [add_item] calls with non-negative quantity and price and of arbitrary
    [remove_item] calls runs to its end and reaches a mapping whose records
    have non-negative quantity and price. *)
Theorem run_ops_nonneg (ops : list op) (M : inventory) w :
  inventory_nonneg M →
  Forall op_nonneg ops →
  ∃ M' w', run_ops ops M w = (Return M', w') ∧ inventory_nonneg M'.
Proof.
  intros HM Hops. revert M w HM.
  induction Hops as [| o ops Ho _ IH]; intros M w HM; simpl.
  - by eexists _, _.
  - destruct (apply_op_nonneg M o w HM Ho) as (M1 & w1 & Hrun & HM1).
    destruct (IH M1 w1 HM1) as (M' & w' & Hrest & HM').
    exists M', w'. split; [| done].
    unfold mbind, py_bind. by rewrite Hrun.
Qed.

(** An addition, a removal, and a removal that passes a negative
    quantity for a name that is not there. *)
Lemma run_ops_nonneg_witness :
  inventory_nonneg ∅ ∧
  Forall op_nonneg
    [Add "Widget" 10 (NFloat 2.5); Remove "Widget" 4; Remove "Gadget" (-1)] ∧
  ∃ M' w',
    run_ops
      [Add "Widget" 10 (NFloat 2.5); Remove "Widget" 4; Remove "Gadget" (-1)]
      ∅ fresh_world = (Return M', w') ∧
    inventory_nonneg M'.
Proof.
  assert (HM : inventory_nonneg ∅) by apply map_Forall_empty.
  assert (Hops : Forall op_nonneg
    [Add "Widget" 10 (NFloat 2.5); Remove "Widget" 4; Remove "Gadget" (-1)]).
  { repeat constructor. simpl. lia. }
  split; [exact HM |]. split; [exact Hops |].
  exact (run_ops_nonneg _ ∅ fresh_world HM Hops).
Defined.

(** ** Reporting *)

Lemma low_items_loop_run (entries : list (string * record)) w :
  for_each entries (λ '(item, details),
    print [PStr item; PStr ": Quantity = "; PInt (quantity details);
           PStr ", Threshold = "; PInt LOW_STOCK_THRESHOLD];;
    logging WARNING "Low stock alert for %s (Quantity: %d)"
      [PStr item; PInt (quantity details)]) w
  = (Return tt,
     World (disk w) (log w ++ (low_stock_alert <$> entries))
       (stdout w ++ (low_stock_line <$> entries))).
Proof.
  revert w. induction entries as [| [item details] entries IH]; intros w.
  - destruct w. simpl. py_unfold. by rewrite !app_nil_r.
  - simpl. py_unfold. rewrite IH. simpl. by rewrite <- !app_assoc.
Qed.

Lemma check_low_items_run (M : inventory) w :
  check_low_items M w =
    (Return tt,
     if bool_decide (low_items M ≠ ∅) then
       World (disk w)
         (log w ++ (low_stock_alert <$> map_to_list (low_items M)))
         (stdout w ++ [PStr "Low Stock Items:"]
            :: (low_stock_line <$> map_to_list (low_items M)))
     else
       World (disk w) (log w) (stdout w ++ [[PStr "No low-stock items found."]])).
Proof.
  unfold check_low_items. case_bool_decide; [| done].
  unfold mbind, py_bind, print. simpl. rewrite low_items_loop_run. simpl.
  by rewrite <- app_assoc.
Qed.


(** ** The persistence adapter *)

Section PersistenceProperties.
Context `{codec : Json}.

Ltac io_unfold :=
  repeat progress
    (unfold load_data, save_data, json_dump_file, try_except, os_path_exists,
       open_read, open_write, file_write, lift_outcome, mbind, py_bind,
       mret, py_ret, raise, logging; simpl).

(** What [load_data] does, by what [DATA_FILE] names on disk. *)
Lemma load_data_run w :
  load_data w =
    match disk w with
    | Missing _ =>
        (Return (PDict []),
         logged w WARNING "No existing data file found at %s"
           [PStr DATA_FILE])
    | Directory =>
        (Raise (Exc IsADirectoryError "[Errno 21] Is a directory: 'inventory_data.json'"), w)
    | Regular _ false _ =>
        (Raise (Exc PermissionError "[Errno 13] Permission denied: 'inventory_data.json'"), w)
    | Regular content true _ =>
        match json_load content with
        | Return obj => (Return obj, w)
        | Raise e =>
            if caught_by [JSONDecodeError; FileNotFoundError] e then
              (Return (PDict []),
               logged w ERROR "Error loading data from %s: %s"
                 [PStr DATA_FILE; PStr (exc_str e)])
            else (Raise e, w)
        end
    end.
Proof.
  destruct w as [[? | | content [] ?] lg out]; io_unfold; try done.
  all: by destruct (json_load content).
Qed.

Lemma save_data_run_usable (M : inventory) text w :
  store_usable (disk w) = true →
  json_dump (inventory_to_py M) = (text, None) →
  save_data M w = (Return tt, saved w text).
Proof.
  intros Hd Hdump.
  destruct w as [[[] | | ? [] []] lg out]; try done;
    io_unfold; by rewrite Hdump.
Qed.

(** When the file cannot be created, [save_data] absorbs the error: the
    disk stays as it was and an ERROR record is logged. *)
Lemma save_data_run_refused (M : inventory) w :
  disk w = Missing false →
  save_data M w =
    (Return tt,
     logged w ERROR "Error saving inventory data: %s"
       [PStr "[Errno 13] Permission denied: 'inventory_data.json'"]).
Proof. destruct w as [d lg out]. simpl. by intros ->. Qed.

(** C8, where the code departs from it: [DATA_FILE] exists but cannot be
    opened, because the process may not read it or because the path names a
    directory.  [open] raises [PermissionError] or [IsADirectoryError]; the
    handler of [load_data] names [json.JSONDecodeError] and
    [FileNotFoundError] only, so the exception reaches the caller and
    nothing is logged. *)
Theorem load_data_propagates_open_error content writable lg out :
  load_data (World (Regular content false writable) lg out)
    = (Raise (Exc PermissionError "[Errno 13] Permission denied: 'inventory_data.json'"),
       World (Regular content false writable) lg out) ∧
  load_data (World Directory lg out)
    = (Raise (Exc IsADirectoryError "[Errno 21] Is a directory: 'inventory_data.json'"),
       World Directory lg out).
Proof. by rewrite !load_data_run. Qed.

(** The failures that [load_data] does absorb: a missing file gives the
    empty mapping and a WARNING record. *)
Lemma load_data_missing w creatable :
  disk w = Missing creatable →
  load_data w =
    (Return (PDict []),
     logged w WARNING "No existing data file found at %s" [PStr DATA_FILE]).
Proof. intros Hd. by rewrite load_data_run, Hd. Qed.

(** Content that [json.load] rejects with [JSONDecodeError] gives the empty
    mapping and an ERROR record. *)
Lemma load_data_corrupt w content writable msg :
  disk w = Regular content true writable →
  json_load content = Raise (Exc JSONDecodeError msg) →
  load_data w =
    (Return (PDict []),
     logged w ERROR "Error loading data from %s: %s"
       [PStr DATA_FILE; PStr msg]).
Proof. intros Hd Hload. by rewrite load_data_run, Hd, Hload. Qed.

(** Any other exception of [json.load] reaches the caller: bytes that are
    not UTF-8 ([UnicodeDecodeError]), nesting beyond the recursion limit
    ([RecursionError]). *)
Lemma load_data_uncaught w content writable e :
  disk w = Regular content true writable →
  json_load content = Raise e →
  caught_by [JSONDecodeError; FileNotFoundError] e = false →
  load_data w = (Raise e, w).
Proof. intros Hd Hload He. by rewrite load_data_run, Hd, Hload, He. Qed.

End PersistenceProperties.

(** Two mappings that are the same Python object are the same mapping. *)
Lemma inventory_to_py_inj (M1 M2 : inventory) :
  inventory_to_py M1 = inventory_to_py M2 → M1 = M2.
Proof.
  unfold inventory_to_py. intros [= Heq].
  assert (Hinj : Inj (=) (=) (prod_map (@id string) record_to_py)).
  { intros [k1 [q1 p1]] [k2 [q2 p2]]. unfold prod_map, record_to_py. simpl.
    intros [= -> -> Hp]. by destruct p1, p2; simplify_eq/=. }
  apply map_to_list_inj. by rewrite (inj _ _ _ Heq).
Qed.

(** ** The [json] module: what [json.dump] writes, [json.load] reads back *)

Section JsonRoundTrip.
Context `{ft : FloatText}.

Arguments String.append : simpl nomatch.

Lemma append_assoc (a b c : string) : (a +:+ b) +:+ c = a +:+ (b +:+ c).
Proof. induction a as [| x a IH]; simpl; [done | by rewrite IH]. Qed.

Lemma append_nil_r (a : string) : a +:+ "" = a.
Proof. induction a as [| x a IH]; simpl; [done | by rewrite IH]. Qed.

Lemma skip_ws_spaces (n : nat) (s : string) :
  skip_ws (spaces n +:+ s) = skip_ws s.
Proof. induction n as [| n IH]; [done | exact IH]. Qed.

Lemma skip_ws_newline_indent (level : nat) (s : string) :
  skip_ws (newline_indent level +:+ s) = skip_ws s.
Proof.
  unfold newline_indent. rewrite append_assoc. simpl. apply skip_ws_spaces.
Qed.

Lemma span_digits_append (t rest : string) :
  (∀ c rest', rest = String c rest' → is_digit c = false) →
  span_digits (t +:+ rest) = ((span_digits t).1, (span_digits t).2 +:+ rest).
Proof.
  intros Hrest. induction t as [| c t IH]; cbn [span_digits String.append].
  - destruct rest as [| c rest']; [done |]. cbn [span_digits].
    by rewrite (Hrest c rest' eq_refl).
  - destruct (is_digit c); [| done].
    rewrite IH. by destruct (span_digits t).
Qed.

Lemma delimited_not_digit (rest : string) :
  delimited rest → ∀ c rest', rest = String c rest' → is_digit c = false.
Proof. intros (c & r & -> & [-> | ->]) c' r' [= <- <-]; reflexivity. Qed.

Lemma scan_integer_unfold (s : string) :
  scan_integer s =
    match s with
    | String c s' =>
        if Ascii.eqb c "-" then scan_unsigned "-" s' else scan_unsigned "" s
    | "" => None
    end.
Proof. reflexivity. Qed.

Lemma scan_unsigned_append (sign s1 rest : string) integer r :
  delimited rest →
  scan_unsigned sign s1 = Some (integer, r) →
  scan_unsigned sign (s1 +:+ rest) = Some (integer, r +:+ rest).
Proof.
  intros Hrest. pose proof (delimited_not_digit rest Hrest) as Hnd.
  destruct s1 as [| c s1]; [done |]. cbn [String.append scan_unsigned].
  destruct (Ascii.eqb c "0"); [by intros [= <- <-] |].
  destruct (is_digit c); [| done].
  rewrite span_digits_append by done.
  destruct (span_digits s1) as [ds r']. by intros [= <- <-].
Qed.

Lemma scan_integer_append (t rest : string) integer r :
  delimited rest →
  scan_integer t = Some (integer, r) →
  scan_integer (t +:+ rest) = Some (integer, r +:+ rest).
Proof.
  intros Hrest. rewrite !scan_integer_unfold.
  destruct t as [| c t]; [done |]. cbn [String.append].
  destruct (Ascii.eqb c "-"); [by apply scan_unsigned_append |].
  by apply (scan_unsigned_append "" (String c t)).
Qed.

Lemma scan_fraction_append (s rest : string) :
  delimited rest →
  scan_fraction (s +:+ rest)
    = ((scan_fraction s).1, (scan_fraction s).2 +:+ rest).
Proof.
  intros Hrest. pose proof (delimited_not_digit rest Hrest) as Hnd.
  destruct s as [| c s]; cbn [String.append].
  - destruct Hrest as (c & r & -> & [-> | ->]); reflexivity.
  - unfold scan_fraction. destruct (Ascii.eqb c "."); [| done].
    rewrite span_digits_append by done.
    destruct (span_digits s) as [[| d ds] r]; reflexivity.
Qed.

Lemma scan_exponent_append (s rest : string) :
  delimited rest →
  scan_exponent (s +:+ rest)
    = ((scan_exponent s).1, (scan_exponent s).2 +:+ rest).
Proof.
  intros Hrest. pose proof (delimited_not_digit rest Hrest) as Hnd.
  destruct s as [| c s]; cbn [String.append].
  - destruct Hrest as (c & r & -> & [-> | ->]); reflexivity.
  - unfold scan_exponent. destruct (Ascii.eqb c "e" || Ascii.eqb c "E"); [| done].
    destruct s as [| d s]; cbn [String.append].
    + destruct Hrest as (c' & r & -> & [-> | ->]); reflexivity.
    + destruct (Ascii.eqb d "-" || Ascii.eqb d "+").
      * rewrite span_digits_append by done.
        destruct (span_digits s) as [[| x ds] r]; reflexivity.
      * change (String d (s +:+ rest)) with (String d s +:+ rest).
        rewrite (span_digits_append (String d s)) by done.
        destruct (span_digits (String d s)) as [[| x ds] r]; reflexivity.
Qed.

Lemma scan_number_append (t rest : string) integer frac exp r :
  delimited rest →
  scan_number t = Some (integer, frac, exp, r) →
  scan_number (t +:+ rest) = Some (integer, frac, exp, r +:+ rest).
Proof.
  intros Hrest. unfold scan_number.
  destruct (scan_integer t) as [[i r1] |] eqn:Hi; [| done].
  rewrite (scan_integer_append t rest i r1 Hrest Hi).
  rewrite scan_fraction_append by done.
  destruct (scan_fraction r1) as [f r2]. cbn [fst snd].
  rewrite scan_exponent_append by done.
  destruct (scan_exponent r2) as [e r3]. cbn [fst snd].
  by intros [= <- <- <- <-].
Qed.

(** The parts of a number, put together again, are the text matched. *)
Lemma span_digits_whole (s : string) :
  (span_digits s).1 +:+ (span_digits s).2 = s.
Proof.
  induction s as [| c s IH]; [done |]. cbn [span_digits].
  destruct (is_digit c); [| done].
  destruct (span_digits s) as [ds r]. cbn in *. by rewrite IH.
Qed.

Lemma scan_number_whole (t : string) integer frac exp r :
  scan_number t = Some (integer, frac, exp, r) →
  integer +:+ frac +:+ exp +:+ r = t.
Proof.
  unfold scan_number. rewrite scan_integer_unfold.
  assert (Hu : ∀ sign s1 i r1,
    scan_unsigned sign s1 = Some (i, r1) → i +:+ r1 = sign +:+ s1).
  { intros sign [| c s1] i r1; [done |]. cbn [scan_unsigned].
    destruct (Ascii.eqb_spec c "0") as [-> |].
    - intros [= <- <-]. by rewrite append_assoc.
    - destruct (is_digit c); [| done].
      pose proof (span_digits_whole s1) as Hs.
      destruct (span_digits s1) as [ds r']. cbn in Hs.
      intros [= <- <-]. rewrite append_assoc. cbn. by rewrite Hs. }
  assert (Hf : ∀ s, (scan_fraction s).1 +:+ (scan_fraction s).2 = s).
  { intros [| c s]; [done |]. unfold scan_fraction.
    destruct (Ascii.eqb c "."); [| done].
    pose proof (span_digits_whole s) as Hs.
    destruct (span_digits s) as [[| d ds] r']; [done |]. cbn in *. by rewrite Hs. }
  assert (He : ∀ s, (scan_exponent s).1 +:+ (scan_exponent s).2 = s).
  { intros [| c s]; [done |]. unfold scan_exponent.
    destruct (Ascii.eqb c "e" || Ascii.eqb c "E"); [| done].
    destruct s as [| d s]; [done |].
    destruct (Ascii.eqb d "-" || Ascii.eqb d "+").
    - pose proof (span_digits_whole s) as Hs.
      destruct (span_digits s) as [[| x ds] r']; [done |]. cbn in *.
      by rewrite Hs.
    - pose proof (span_digits_whole (String d s)) as Hs.
      destruct (span_digits (String d s)) as [[| x ds] r']; [done |].
      cbn in *. by rewrite Hs. }
  intros Hscan.
  assert (∃ i r1, (match t with
     | String c s' =>
         if Ascii.eqb c "-" then scan_unsigned "-" s' else scan_unsigned "" t
     | "" => None end) = Some (i, r1) ∧ i +:+ r1 = t) as (i & r1 & Hi & Hit).
  { destruct t as [| c s']; [done |].
    destruct (Ascii.eqb_spec c "-") as [-> |].
    - destruct (scan_unsigned "-" s') as [[i r1] |] eqn:Hi; [| done].
      exists i, r1. split; [done |]. by apply Hu in Hi.
    - destruct (scan_unsigned "" (String c s')) as [[i r1] |] eqn:Hi; [| done].
      exists i, r1. split; [done |]. by apply Hu in Hi. }
  rewrite Hi in Hscan.
  pose proof (Hf r1) as Hf1. destruct (scan_fraction r1) as [f r2].
  pose proof (He r2) as He2. destruct (scan_exponent r2) as [e r3].
  cbn in *. injection Hscan as <- <- <- <-.
  by rewrite He2, Hf1, Hit.
Qed.

(** *** The text of an integer *)

Lemma span_digits_uint (d : Decimal.uint) :
  span_digits (NilEmpty.string_of_uint d) = (NilEmpty.string_of_uint d, "").
Proof.
  induction d; cbn [NilEmpty.string_of_uint span_digits]; [done | ..];
    rewrite IHd; reflexivity.
Qed.

Lemma nzhead_head (d : Decimal.uint) :
  match Decimal.nzhead d with Decimal.D0 _ => False | _ => True end.
Proof. induction d; simpl; done. Qed.

Lemma pos_to_uint_head (p : positive) :
  match Pos.to_uint p with
  | Decimal.Nil | Decimal.D0 _ => False
  | _ => True
  end.
Proof.
  pose proof (Unsigned.to_uint_nonnil p) as Hnil.
  pose proof (Unsigned.to_uint_nonzero p) as Hzero.
  assert (Hnorm : Decimal.unorm (Pos.to_uint p) = Pos.to_uint p).
  { rewrite <- (DecimalPos.Unsigned.to_of (Pos.to_uint p)).
    by rewrite DecimalPos.Unsigned.of_to. }
  destruct (Pos.to_uint p) as [| d | | | | | | | | |] eqn:Hd; try done.
  unfold Decimal.unorm in Hnorm. pose proof (nzhead_head (Decimal.D0 d)) as Hh.
  destruct (Decimal.nzhead (Decimal.D0 d)); done.
Qed.

Lemma scan_unsigned_pos (sign : string) (p : positive) :
  scan_unsigned sign (NilEmpty.string_of_uint (Pos.to_uint p))
    = Some (sign +:+ NilEmpty.string_of_uint (Pos.to_uint p), "").
Proof.
  pose proof (pos_to_uint_head p) as Hh.
  destruct (Pos.to_uint p); try done;
    cbn [NilEmpty.string_of_uint scan_unsigned];
    rewrite span_digits_uint; reflexivity.
Qed.

Lemma string_of_uint_pos (p : positive) :
  NilZero.string_of_uint (Pos.to_uint p)
    = NilEmpty.string_of_uint (Pos.to_uint p).
Proof.
  pose proof (Unsigned.to_uint_nonnil p). by destruct (Pos.to_uint p).
Qed.

Lemma scan_number_int_repr (z : Z) :
  scan_number (int_repr z) = Some (int_repr z, "", "", "").
Proof.
  unfold scan_number, int_repr. rewrite scan_integer_unfold.
  destruct z as [| p | p]; [reflexivity | |]; cbn [Z.to_int NilZero.string_of_int].
  - rewrite string_of_uint_pos.
    pose proof (pos_to_uint_head p) as Hh.
    pose proof (scan_unsigned_pos "" p) as Hs.
    destruct (NilEmpty.string_of_uint (Pos.to_uint p)) as [| c s] eqn:Hp.
    + by destruct (Pos.to_uint p).
    + assert (Ascii.eqb c "-" = false) as ->.
      { destruct (Pos.to_uint p); try done; by injection Hp as <- _. }
      by rewrite Hs.
  - rewrite string_of_uint_pos. cbn [String.append].
    rewrite Ascii.eqb_refl. by rewrite scan_unsigned_pos.
Qed.

Lemma int_of_text_repr (z : Z) : int_of_text (int_repr z) = z.
Proof.
  unfold int_of_text, int_repr.
  rewrite NilZero.isi.
  - apply DecimalZ.of_to.
  - destruct z as [| p | p]; [done | | done]. cbn.
    pose proof (Unsigned.to_uint_nonnil p). congruence.
  - destruct z as [| p | p]; [done | done |]. cbn.
    pose proof (Unsigned.to_uint_nonnil p). congruence.
Qed.

(** *** The text of a string *)

Lemma scanstring_escape_char (c : ascii) (start tail : string) :
  tail ≠ "" →
  scanstring start (escape_char c +:+ tail)
    = scanned_cons c (scanstring start tail).
Proof.
  intros Htail. destruct tail as [| x t]; [done |].
  destruct c as [[] [] [] [] [] [] [] []]; reflexivity.
Qed.

Lemma scanstring_escape (s start rest : string) :
  scanstring start (escape s +:+ String "034" rest) = Scanned s rest.
Proof.
  induction s as [| c s IH]; cbn [escape].
  - cbn [String.append scanstring]. reflexivity.
  - rewrite append_assoc, scanstring_escape_char.
    + by rewrite IH.
    + by destruct (escape s).
Qed.

(** *** Floats that are no number *)

Lemma SFeqb_diag (x : spec_float) : SFeqb x x = true ∨ x = S754_nan.
Proof.
  destruct x as [s | s | | s m e]; unfold SFeqb, SFcompare;
    [by left | left; by destruct s | by right |].
  left. by destruct s; rewrite Z.compare_refl, Pos.compare_refl.
Qed.

Lemma float_nonneg_not_nan (f : float) :
  PrimFloat.leb 0 f = true → PrimFloat.is_nan f = false.
Proof.
  unfold PrimFloat.is_nan.
  rewrite FloatAxioms.leb_spec, FloatAxioms.eqb_spec.
  destruct (SFeqb_diag (Prim2SF f)) as [-> | ->]; [done |].
  by change (Prim2SF 0) with (S754_zero false).
Qed.

Lemma float_eqb_infinity (f : float) (negative : bool) :
  SFeqb (Prim2SF f) (S754_infinity negative) = true →
  Prim2SF f = S754_infinity negative.
Proof.
  destruct (Prim2SF f) as [s | s | | s m e]; unfold SFeqb, SFcompare;
    try done; by destruct s, negative.
Qed.

Lemma float_is_infinity (f : float) :
  PrimFloat.eqb f infinity = true → f = infinity.
Proof.
  rewrite FloatAxioms.eqb_spec. intros Hf. apply FloatAxioms.Prim2SF_inj.
  by apply float_eqb_infinity in Hf.
Qed.

Lemma float_is_neg_infinity (f : float) :
  PrimFloat.eqb f neg_infinity = true → f = neg_infinity.
Proof.
  rewrite FloatAxioms.eqb_spec. intros Hf. apply FloatAxioms.Prim2SF_inj.
  by apply float_eqb_infinity in Hf.
Qed.

Lemma float_finite (f : float) :
  PrimFloat.is_nan f = false →
  PrimFloat.eqb f infinity = false →
  PrimFloat.eqb f neg_infinity = false →
  PrimFloat.is_finite f = true.
Proof.
  unfold PrimFloat.is_finite, PrimFloat.is_infinity. intros -> Hp Hn.
  rewrite FloatAxioms.eqb_spec in *. rewrite FloatAxioms.abs_spec.
  change (Prim2SF infinity) with (S754_infinity false) in *.
  change (Prim2SF neg_infinity) with (S754_infinity true) in *.
  destruct (Prim2SF f) as [s | s | | s m e]; try done.
  by destruct s.
Qed.

Lemma scan_once_encode_str (depth : nat) (s rest : string) :
  scan_once (S depth) (encode_str s +:+ rest) = Scanned (PStr s) rest.
Proof.
  unfold encode_str, dquote. rewrite !append_assoc.
  cbn [String.append scan_once]. rewrite Ascii.eqb_refl.
  by rewrite (scanstring_escape s _ rest).
Qed.

Lemma digit_not (c x : ascii) :
  is_digit c = true → is_digit x = false → Ascii.eqb c x = false.
Proof.
  intros Hc Hx. destruct (Ascii.eqb_spec c x) as [-> |]; [congruence | done].
Qed.

(** A text that starts as a number is scanned as a number. *)
Lemma scan_once_number (depth : nat) (s : string) integer r :
  scan_integer s = Some (integer, r) →
  scan_once (S depth) s =
    match scan_number_value s with
    | Some res => res
    | None => Expected "Expecting value" s
    end.
Proof.
  rewrite scan_integer_unfold. destruct s as [| c s']; [done |].
  destruct (Ascii.eqb_spec c "-") as [-> | Hc].
  - destruct s' as [| c2 s'']; [done |]. cbn [scan_unsigned].
    intros Hu.
    assert (Hd : is_digit c2 = true).
    { destruct (Ascii.eqb_spec c2 "0") as [-> |]; [done |].
      by destruct (is_digit c2). }
    cbn [scan_once]. cbn [Ascii.eqb Bool.eqb]. unfold scan_word.
    cbn [after_prefix Ascii.eqb Bool.eqb].
    assert (Ascii.eqb "I" c2 = false) as Hi.
    { rewrite Ascii.eqb_sym. by apply digit_not. }
    cbn in Hi. by rewrite Hi.
  - intros Hu. cbn [scan_unsigned] in Hu.
    assert (Hd : is_digit c = true).
    { destruct (Ascii.eqb_spec c "0") as [-> |]; [done |].
      by destruct (is_digit c). }
    cbn [scan_once].
    rewrite !(digit_not c) by done. reflexivity.
Qed.

Lemma scan_once_int_repr (depth : nat) (z : Z) (rest : string) :
  delimited rest →
  int_convertible z = true →
  scan_once (S depth) (int_repr z +:+ rest) = Scanned (PInt z) rest.
Proof.
  intros Hrest Hz.
  pose proof (scan_number_append _ rest _ _ _ _ Hrest (scan_number_int_repr z))
    as Hnum.
  assert (Hint : ∃ r, scan_integer (int_repr z +:+ rest) = Some (int_repr z, r)).
  { unfold scan_number in Hnum.
    destruct (scan_integer (int_repr z +:+ rest)) as [[i r1] |]; [| done].
    destruct (scan_fraction r1), (scan_exponent _). injection Hnum as -> _ _ _.
    by eexists. }
  destruct Hint as [r Hint].
  rewrite (scan_once_number depth _ _ _ Hint).
  unfold scan_number_value. rewrite Hnum.
  by rewrite int_of_text_repr, Hz.
Qed.

Lemma scan_once_float_text (depth : nat) (t rest : string) :
  delimited rest →
  json_float_text t = true →
  scan_once (S depth) (t +:+ rest) = Scanned (PFloat (float_parse t)) rest.
Proof.
  intros Hrest Ht. unfold json_float_text in Ht.
  destruct (scan_number t) as [[[[i f] e] r] |] eqn:Hnum; [| by destruct t].
  assert (r = "") as ->.
  { destruct f, e, r; done. }
  pose proof (scan_number_whole t _ _ _ _ Hnum) as Hwhole.
  pose proof (scan_number_append _ rest _ _ _ _ Hrest Hnum) as Happ.
  assert (Hint : ∃ r, scan_integer (t +:+ rest) = Some (i, r)).
  { unfold scan_number in Happ.
    destruct (scan_integer (t +:+ rest)) as [[i' r1] |]; [| done].
    destruct (scan_fraction r1), (scan_exponent _). injection Happ as -> _ _ _.
    by eexists. }
  destruct Hint as [r Hint].
  rewrite (scan_once_number depth _ _ _ Hint).
  unfold scan_number_value. rewrite Happ.
  rewrite !append_nil_r in Hwhole. cbn [String.append].
  destruct f as [| x f]; [destruct e as [| y e]; [done |] |]; by rewrite Hwhole.
Qed.

(** *** Objects *)


Lemma skip_ws_encode_str (k rest : string) :
  skip_ws (encode_str k +:+ rest) = encode_str k +:+ rest.
Proof. unfold encode_str, dquote. by rewrite !append_assoc. Qed.

Lemma delimited_comma (s : string) : delimited ("," +:+ s).
Proof. exists ","%char, s. by split; [| left]. Qed.

Lemma delimited_newline_indent (level : nat) (s : string) :
  delimited (newline_indent level +:+ s).
Proof.
  unfold newline_indent, newline. rewrite append_assoc.
  eexists _, _. by split; [| right].
Qed.

Lemma scan_members_text (level depth0 : nat)
    (members : list (string * pyval * string)) :
  members ≠ [] →
  Forall (λ m, scans_as depth0 m.2 m.1.2) members →
  ∀ depth rest,
    (S depth0 + length members ≤ depth)%nat →
    scan_members depth
      (members_text level members +:+ newline_indent (pred level) +:+ "}"
       +:+ rest)
    = Scanned (member_pair <$> members) rest.
Proof.
  intros Hne Hall. induction Hall as [| [[k v] text] members Hm Hall IH];
    [done |].
  intros depth rest Hdepth. destruct depth as [| depth]; [simpl in Hdepth; lia |].
  cbn [members_text]. unfold encode_str at 1. unfold dquote.
  rewrite !append_assoc.
  cbn [String.append scan_members after_char]. rewrite Ascii.eqb_refl.
  rewrite scanstring_escape.
  cbn [skip_ws is_ws Ascii.eqb Bool.eqb orb after_char].
  cbn [fst snd] in Hm.
  destruct members as [| m members].
  - cbn [String.append].
    destruct (Hm depth (newline_indent (pred level) +:+ String "}" rest))
      as [Hws Hscan]; [simpl in *; lia | apply delimited_newline_indent |].
    rewrite Hws, Hscan, skip_ws_newline_indent.
    reflexivity.
  - cbn [String.append]. rewrite ?append_assoc.
    destruct (Hm depth (String "," (newline_indent level
                        +:+ members_text level (m :: members)
                        +:+ newline_indent (pred level) +:+ String "}" rest)))
      as [Hws Hscan]; [simpl in *; lia | apply (delimited_comma _) |].
    rewrite Hws, Hscan.
    cbn [String.append skip_ws is_ws Ascii.eqb Bool.eqb orb after_char].
    rewrite skip_ws_newline_indent.
    assert (Hskip : ∀ s, skip_ws (members_text level (m :: members) +:+ s)
                         = members_text level (m :: members) +:+ s).
    { intros s. destruct m as [[k' v'] text']. cbn [members_text].
      rewrite !append_assoc. apply skip_ws_encode_str. }
    rewrite Hskip. change (String "}" rest) with ("}" +:+ rest).
    rewrite IH; [done | done | simpl in *; lia].
Qed.

(** *** What is dumped *)


Lemma dump_value_dict (level : nat) k v (items : list (string * pyval)) :
  dump_value level (PDict ((k, v) :: items)) =
    then_ (emit "{")
      (then_ (emit (newline_indent (S level)))
         (then_ (emit (encode_str k))
            (then_ (emit ": ")
               (then_ (dump_value (S level) v)
                  (then_ (dump_members level items)
                     (then_ (emit (newline_indent level)) (emit "}"))))))).
Proof. reflexivity. Qed.

Lemma then_emit (a b : string) (e : option exc) :
  then_ (emit a) (b, e) = (a +:+ b, e).
Proof. reflexivity. Qed.

Lemma then_written (a b : string) (e : option exc) :
  then_ (a, None) (b, e) = (a +:+ b, e).
Proof. reflexivity. Qed.

Lemma dump_members_text (level : nat)
    (members : list (string * pyval * string)) :
  Forall (λ m, dump_value (S level) m.1.2 = (m.2, None)) members →
  dump_members level (member_pair <$> members) =
    (match members with
     | [] => ""
     | _ :: _ =>
         "," +:+ newline_indent (S level) +:+ members_text (S level) members
     end, None).
Proof.
  induction 1 as [| [[k v] text] members Hm Hall IH]; [done |].
  cbn [fmap list_fmap member_pair fst snd dump_members] in *.
  fold (dump_members level). rewrite IH, Hm. unfold emit.
  rewrite !then_written. cbn [members_text]. by rewrite !append_assoc.
Qed.

Lemma dump_value_object (level : nat)
    (members : list (string * pyval * string)) :
  members ≠ [] →
  Forall (λ m, dump_value (S level) m.1.2 = (m.2, None)) members →
  dump_value level (PDict (member_pair <$> members))
    = (object_text level members, None).
Proof.
  intros Hne Hall. destruct members as [| [[k v] text] members]; [done |].
  apply Forall_cons in Hall as [Hm Hall]. cbn [fst snd] in Hm.
  rewrite fmap_cons. unfold member_pair at 1. cbn [fst snd].
  rewrite dump_value_dict, (dump_members_text _ _ Hall), Hm. unfold emit.
  rewrite !then_written. unfold object_text. cbn [members_text].
  by rewrite !append_assoc.
Qed.

(** *** What is read back *)


Lemma dict_set_fresh (k : string) (v : pyval) (d : list (string * pyval)) :
  k ∉ d.*1 → dict_set k v d = (d ++ [(k, v)])%list.
Proof.
  induction d as [| [k' v'] d IH]; [done |].
  rewrite fmap_cons, not_elem_of_cons. cbn [fst dict_set]. intros [Hne Hk].
  destruct (String.eqb_spec k k') as [| _]; [done |]. by rewrite IH.
Qed.

(** Pairs with distinct keys are the items of the dictionary they build. *)
Lemma dict_of_pairs_nodup (pairs : list (string * pyval)) :
  NoDup pairs.*1 → dict_of_pairs pairs = pairs.
Proof.
  unfold dict_of_pairs.
  enough (∀ d, NoDup ((d ++ pairs)%list.*1) →
            foldl (λ d kv, dict_set kv.1 kv.2 d) d pairs = (d ++ pairs)%list)
    as Hd
    by (intros; by apply (Hd [])).
  induction pairs as [| [k v] pairs IH]; intros d Hnd; cbn [foldl fst snd].
  - by rewrite app_nil_r.
  - rewrite dict_set_fresh.
    + rewrite IH; by rewrite <- app_assoc.
    + rewrite fmap_app, NoDup_app in Hnd. destruct Hnd as (_ & Hnd & _).
      intros Hin. apply (Hnd k Hin). rewrite fmap_cons. by left.
Qed.

Lemma members_text_skip_ws (level : nat)
    (members : list (string * pyval * string)) (s : string) :
  skip_ws (members_text level members +:+ s) = members_text level members +:+ s
  ∨ members = [].
Proof.
  destruct members as [| [[k v] text] members]; [by right | left].
  cbn [members_text]. rewrite !append_assoc. apply skip_ws_encode_str.
Qed.

Lemma members_text_not_closed (level : nat)
    (members : list (string * pyval * string)) (s : string) :
  members ≠ [] → after_char "}" (members_text level members +:+ s) = None.
Proof.
  destruct members as [| [[k v] text] members]; [done | intros _].
  cbn [members_text]. unfold encode_str, dquote. by rewrite !append_assoc.
Qed.

Lemma scan_once_object_text (level depth0 : nat)
    (members : list (string * pyval * string)) (depth : nat) (rest : string) :
  members ≠ [] →
  Forall (λ m, scans_as depth0 m.2 m.1.2) members →
  (S (S depth0) + length members ≤ depth)%nat →
  scan_once depth (object_text level members +:+ rest)
    = Scanned (PDict (dict_of_pairs (member_pair <$> members))) rest.
Proof.
  intros Hne Hall Hdepth. destruct depth as [| depth]; [simpl in Hdepth; lia |].
  unfold object_text. rewrite !append_assoc. cbn [String.append scan_once].
  cbn [Ascii.eqb Bool.eqb]. rewrite skip_ws_newline_indent.
  destruct (members_text_skip_ws (S level) members
              (newline_indent level +:+ String "}" rest)) as [-> |]; [| done].
  rewrite members_text_not_closed by done.
  pose proof (scan_members_text (S level) depth0 members Hne Hall depth rest)
    as Hscan.
  cbn [pred String.append] in Hscan. rewrite Hscan; [done |].
  simpl in Hdepth. lia.
Qed.

(** An object with distinct keys, written inside another. *)
Lemma scans_as_object (level depth0 : nat)
    (members : list (string * pyval * string)) :
  members ≠ [] →
  Forall (λ m, scans_as depth0 m.2 m.1.2) members →
  NoDup (member_pair <$> members).*1 →
  scans_as (S (S depth0) + length members) (object_text level members)
    (PDict (member_pair <$> members)).
Proof.
  intros Hne Hall Hnd depth rest Hdepth _. split.
  - unfold object_text. by rewrite !append_assoc.
  - rewrite (scan_once_object_text level depth0) by done.
    by rewrite dict_of_pairs_nodup.
Qed.

Lemma scan_number_integer (s : string) i f e r :
  scan_number s = Some (i, f, e, r) → ∃ r1, scan_integer s = Some (i, r1).
Proof.
  unfold scan_number.
  destruct (scan_integer s) as [[i' r1] |]; [| done].
  destruct (scan_fraction r1), (scan_exponent _). intros [= -> _ _ _].
  by eexists.
Qed.

Lemma scan_integer_skip_ws (s : string) i r :
  scan_integer s = Some (i, r) → skip_ws s = s.
Proof.
  destruct s as [| c s]; [done |]. rewrite scan_integer_unfold.
  cbn [skip_ws]. destruct (is_ws c) eqn:Hws; [| done]. unfold is_ws in Hws.
  destruct (Ascii.eqb_spec c " ") as [-> |]; [done |].
  destruct (Ascii.eqb_spec c "009") as [-> |]; [done |].
  destruct (Ascii.eqb_spec c "010") as [-> |]; [done |].
  destruct (Ascii.eqb_spec c "013") as [-> |]; done.
Qed.

Lemma scans_as_number_text (text : string) (v : pyval) :
  (∃ i f e, scan_number text = Some (i, f, e, "")) →
  (∀ depth rest, delimited rest →
     scan_once (S depth) (text +:+ rest) = Scanned v rest) →
  scans_as 1 text v.
Proof.
  intros (i & f & e & Hnum) Hscan depth rest Hdepth Hrest. split.
  - pose proof (scan_number_append _ rest _ _ _ _ Hrest Hnum) as Happ.
    apply scan_number_integer in Happ as [r1 Hint].
    by apply scan_integer_skip_ws in Hint.
  - destruct depth as [| depth]; [lia |]. by apply Hscan.
Qed.

Lemma scans_as_int (z : Z) :
  int_convertible z = true → scans_as 1 (int_repr z) (PInt z).
Proof.
  intros Hz. apply scans_as_number_text.
  - eexists _, _, _. apply scan_number_int_repr.
  - intros depth rest Hrest. by apply scan_once_int_repr.
Qed.

Lemma scans_as_float_text (t : string) :
  json_float_text t = true → scans_as 1 t (PFloat (float_parse t)).
Proof.
  intros Ht. apply scans_as_number_text.
  - unfold json_float_text in Ht.
    destruct (scan_number t) as [[[[i f] e] r] |]; [| done].
    exists i, f, e. by destruct f, e, r.
  - intros depth rest Hrest. by apply scan_once_float_text.
Qed.

Lemma scans_as_infinity : scans_as 1 "Infinity" (PFloat infinity).
Proof.
  intros depth rest Hdepth _. destruct depth as [| depth]; [lia |]. done.
Qed.

Lemma length_append (a b : string) :
  String.length (a +:+ b) = (String.length a + String.length b)%nat.
Proof. induction a as [| x a IH]; simpl; [done | by rewrite IH]. Qed.

Lemma members_text_length (level : nat)
    (members : list (string * pyval * string)) :
  (length members ≤ String.length (members_text level members))%nat.
Proof.
  induction members as [| [[k v] text] members IH]; [done |].
  cbn [members_text]. unfold encode_str, dquote. rewrite !length_append.
  destruct members as [| m members]; [simpl; lia |].
  rewrite !length_append. simpl in *. lia.
Qed.

(** [json.loads] on an object written at the top level. *)
Lemma json_loads_object (members : list (string * pyval * string)) :
  members ≠ [] →
  Forall (λ m, scans_as 5 m.2 m.1.2) members →
  NoDup (member_pair <$> members).*1 →
  json_loads (object_text 0 members) = Return (PDict (member_pair <$> members)).
Proof.
  intros Hne Hall Hnd. unfold json_loads.
  assert (skip_ws (object_text 0 members) = object_text 0 members) as ->.
  { reflexivity. }
  rewrite <- (append_nil_r (object_text 0 members)) at 2.
  rewrite (scan_once_object_text 0 5) ; [| done | done |].
  - by rewrite dict_of_pairs_nodup.
  - pose proof (members_text_length 1 members).
    unfold object_text. rewrite !length_append. simpl. lia.
Qed.

(** *** An inventory, saved and loaded *)


Lemma int_convertible_nonneg (z : Z) :
  0 ≤ z → z < 10 ^ int_max_str_digits → int_convertible z = true.
Proof.
  intros Hz Hlt. unfold int_convertible. apply bool_decide_eq_true.
  by rewrite Z.abs_eq.
Qed.

Lemma int_dumps (level : nat) (z : Z) :
  0 ≤ z → z < 10 ^ int_max_str_digits →
  dump_value level (PInt z) = (int_repr z, None).
Proof.
  intros Hz Hlt. cbn [dump_value dump_scalar]. unfold intstr.
  by rewrite int_convertible_nonneg.
Qed.

Lemma number_dumps (level : nat) (x : number) :
  number_nonneg x = true → number_storable x →
  dump_value level (number_to_py x) = (number_text x, None).
Proof.
  destruct x as [z | f]; [| done]. cbn [number_nonneg number_storable].
  intros Hz%bool_decide_eq_true Hlt. by apply int_dumps.
Qed.

Lemma number_scans (x : number) :
  number_nonneg x = true → number_storable x →
  scans_as 1 (number_text x) (number_to_py x).
Proof.
  destruct x as [z | f]; cbn [number_nonneg number_storable number_text
                              number_to_py].
  - intros Hz%bool_decide_eq_true Hlt.
    by apply scans_as_int, int_convertible_nonneg.
  - intros Hf Hback. unfold floatstr. rewrite (float_nonneg_not_nan f Hf).
    destruct (PrimFloat.eqb f infinity) eqn:Hinf.
    { apply float_is_infinity in Hinf as ->. apply scans_as_infinity. }
    destruct (PrimFloat.eqb f neg_infinity) eqn:Hneg.
    { apply float_is_neg_infinity in Hneg as ->. done. }
    destruct Hback as [Htext Hparse].
    { by apply float_finite; [apply float_nonneg_not_nan | |]. }
    rewrite <- Hparse at 2. by apply scans_as_float_text.
Qed.

Lemma record_dumps (level : nat) (r : record) :
  record_nonneg r → record_storable r →
  dump_value level (record_to_py r)
    = (object_text level (record_members r), None).
Proof.
  intros [Hq Hp] [Hsq Hsp].
  change (record_to_py r) with (PDict (member_pair <$> record_members r)).
  apply dump_value_object; [done |].
  constructor; [| constructor; [| constructor]]; cbn [fst snd];
    [by apply int_dumps | by apply number_dumps].
Qed.

Lemma record_scans (level : nat) (r : record) :
  record_nonneg r → record_storable r →
  scans_as 5 (object_text level (record_members r)) (record_to_py r).
Proof.
  intros [Hq Hp] [Hsq Hsp].
  change (record_to_py r) with (PDict (member_pair <$> record_members r)).
  apply (scans_as_object level 1 (record_members r)); [done | |].
  - constructor; [| constructor; [| constructor]]; cbn [fst snd];
      [by apply scans_as_int, int_convertible_nonneg | by apply number_scans].
  - cbn. apply NoDup_cons. split; [| apply NoDup_singleton].
    by rewrite list_elem_of_singleton.
Qed.

Lemma inventory_to_py_members (M : inventory) :
  inventory_to_py M = PDict (member_pair <$> inventory_members M).
Proof.
  unfold inventory_to_py, inventory_members.
  by rewrite <- list_fmap_compose.
Qed.

Lemma inventory_members_keys (M : inventory) :
  (member_pair <$> inventory_members M).*1 = (map_to_list M).*1.
Proof.
  unfold inventory_members. by rewrite <- !list_fmap_compose.
Qed.

(** [json.load] reads back what [json.dump] writes for an inventory. *)
Lemma python_json_roundtrip (M : inventory) :
  inventory_nonneg M → inventory_storable M →
  ∃ text,
    dump_value 0 (inventory_to_py M) = (text, None) ∧
    json_loads text = Return (inventory_to_py M).
Proof.
  intros Hnn Hst. rewrite inventory_to_py_members.
  assert (Hall : Forall (λ kr, record_nonneg kr.2 ∧ record_storable kr.2)
                   (map_to_list M)).
  { apply Forall_forall. intros [k r] Hin%elem_of_map_to_list.
    split; [apply (Hnn k r Hin) | apply (Hst k r Hin)]. }
  destruct (decide (inventory_members M = [])) as [-> | Hne].
  { by exists "{}". }
  exists (object_text 0 (inventory_members M)). split.
  - apply dump_value_object; [done |]. unfold inventory_members.
    rewrite Forall_fmap. eapply Forall_impl; [exact Hall |].
    intros [k r] [? ?]. by apply record_dumps.
  - apply json_loads_object; [done | |].
    + unfold inventory_members. rewrite Forall_fmap.
      eapply Forall_impl; [exact Hall |].
      intros [k r] [? ?]. by apply record_scans.
    + rewrite inventory_members_keys. apply NoDup_fst_map_to_list.
Qed.
End JsonRoundTrip.

(** What [python_json] writes for [widget_inventory] is the text of
    [widget_json], and it reads that text back. *)
Example python_json_widget :
  @json_dump (@python_json sample_float_text) (inventory_to_py widget_inventory)
    = (widget_json, None) ∧
  @json_load (@python_json sample_float_text) widget_json
    = Return (inventory_to_py widget_inventory).
Proof. split; vm_compute; reflexivity. Qed.

(** A text that is no JSON, and a text with more than one value. *)
Example python_json_refuses :
  @json_load (@python_json sample_float_text) "inventory"
    = Raise (Exc JSONDecodeError
               "Expecting value: line 1 column 1 (char 0)") ∧
  @json_load (@python_json sample_float_text) ("{}" +:+ newline +:+ "{}")
    = Raise (Exc JSONDecodeError "Extra data: line 2 column 1 (char 3)").
Proof. split; vm_compute; reflexivity. Qed.



(** A quantity of more than 4300 digits is well formed and is not saved:
    [json.dump] stops with the [ValueError] of [int.__repr__], which
    [save_data] does not catch, in the middle of the file. *)
Example save_data_huge_quantity :
  inventory_nonneg huge_inventory ∧
  ∃ text,
    @save_data (@python_json sample_float_text) huge_inventory fresh_world
    = (Raise (Exc ValueError
         "Exceeds the limit (4300 digits) for integer string conversion; use sys.set_int_max_str_digits() to increase the limit"),
       World (Regular text true true) [] []).
Proof.
  split.
  - apply map_Forall_singleton. split; [| reflexivity].
    cbn [quantity]. by apply Z.pow_nonneg.
  - eexists. vm_compute. reflexivity.
Qed.


(** * Further properties of the module *)

(** ** The store: outcomes and effects *)

(** X1: a removal that is carried out (the name is present and its stock
    is not below the quantity asked) takes exactly that quantity off
    [get_qty], and a record that stays keeps its price. *)
Theorem remove_item_carried_out (M : inventory) n q r w :
  M !! n = Some r →
  q ≤ quantity r →
  ∃ M' w',
    remove_item n q M w = (Return M', w') ∧
    get_qty n M' = quantity r - q ∧
    (∀ r', M' !! n = Some r' → r' = Rec (quantity r - q) (price r)).
Proof.
  intros Hr Hq. rewrite remove_item_run, Hr.
  rewrite bool_decide_false by lia.
  case_bool_decide as Hz; eexists _, _; (split; [done |]); unfold get_qty.
  - rewrite lookup_delete_eq. split; [lia | done].
  - rewrite lookup_insert_eq. split; [done |]. by intros r' [= <-].
Qed.

(** Four of the ten ["Widget"] removed. *)
Lemma remove_item_carried_out_witness :
  widget_inventory !! "Widget" = Some (Rec 10 (NFloat 2.5)) ∧
  4 ≤ 10 ∧
  ∃ M' w',
    remove_item "Widget" 4 widget_inventory fresh_world = (Return M', w') ∧
    get_qty "Widget" M' = 10 - 4 ∧
    (∀ r', M' !! "Widget" = Some r' → r' = Rec (10 - 4) (NFloat 2.5)).
Proof.
  split; [reflexivity |]. split; [lia |].
  apply (remove_item_carried_out widget_inventory "Widget" 4
           (Rec 10 (NFloat 2.5)) fresh_world); [reflexivity | simpl; lia].
Defined.

(** X2: adding a quantity of a name and removing the same quantity again
    gives back the mapping as it was, when the name was absent or had stock
    above zero; both calls return normally, whatever the quantity and the
    price. *)
Theorem add_then_remove_restores (M : inventory) n q p w :
  (M !! n = None ∨ ∃ r, M !! n = Some r ∧ 0 < quantity r) →
  ∃ w',
    (M1 ← add_item n q p M; remove_item n q M1) w = (Return M, w').
Proof.
  intros HM. unfold mbind, py_bind. rewrite add_item_run.
  destruct HM as [Hn | ([s pr] & Hr & Hs)]; simpl in *.
  - rewrite Hn, remove_item_run, lookup_insert_eq. simpl.
    rewrite bool_decide_false by lia. rewrite bool_decide_true by lia.
    eexists. by rewrite delete_insert_eq, delete_id.
  - rewrite Hr, remove_item_run, lookup_insert_eq. simpl.
    rewrite bool_decide_false by lia. rewrite bool_decide_false by lia.
    eexists. rewrite insert_insert_eq, insert_id; [done |].
    rewrite Hr. do 2 f_equal. lia.
Qed.

(** Five ["Widget"] added to the ten in stock and removed again. *)
Lemma add_then_remove_restores_witness :
  (widget_inventory !! "Widget" = None ∨
   ∃ r, widget_inventory !! "Widget" = Some r ∧ 0 < quantity r) ∧
  ∃ w',
    (M1 ← add_item "Widget" 5 (NFloat 9.99) widget_inventory;
     remove_item "Widget" 5 M1) fresh_world
    = (Return widget_inventory, w').
Proof.
  assert (HM : widget_inventory !! "Widget" = None ∨
    ∃ r, widget_inventory !! "Widget" = Some r ∧ 0 < quantity r).
  { right. exists (Rec 10 (NFloat 2.5)). split; [reflexivity | simpl; lia]. }
  split; [exact HM |].
  exact (add_then_remove_restores widget_inventory "Widget" 5 (NFloat 9.99)
           fresh_world HM).
Defined.

(** X3: the names of the mapping after a call: [add_item] adds its name to
    them and drops none; [remove_item] adds none and drops at most its own
    name. *)
Theorem add_remove_names (M : inventory) n q p w :
  (∃ M' w',
     add_item n q p M w = (Return M', w') ∧ dom M' = {[n]} ∪ dom M) ∧
  (∃ M' w',
     remove_item n q M w = (Return M', w') ∧
     dom M ∖ {[n]} ⊆ dom M' ∧ dom M' ⊆ dom M).
Proof.
  split.
  - rewrite add_item_run.
    destruct (M !! n); eexists _, _; (split; [done |]);
      by rewrite dom_insert_L.
  - assert (Hsub : dom M ∖ {[n]} ⊆ dom M) by by apply subseteq_difference_l.
    rewrite remove_item_run.
    destruct (M !! n) as [r|] eqn:Hr; [| by eexists _, _].
    apply elem_of_dom_2 in Hr.
    repeat case_bool_decide; eexists _, _; (split; [done |]).
    + done.
    + by rewrite dom_delete_L.
    + rewrite dom_insert_L. split.
      * by apply union_subseteq_r'.
      * apply union_subseteq. split; [by apply singleton_subseteq_l | done].
Qed.

Lemma apply_op_log_only (M : inventory) o w :
  ∃ M' records,
    apply_op o M w
      = (Return M', World (disk w) (log w ++ records) (stdout w)) ∧
    (1 ≤ length records ≤ 2)%nat.
Proof.
  destruct o as [n q p | n q]; simpl.
  - rewrite add_item_run.
    destruct (M !! n); eexists _, [_]; (split; [done | simpl; lia]).
  - rewrite remove_item_run.
    destruct (M !! n) as [r|]; [| eexists _, [_]; split; [done | simpl; lia]].
    case_bool_decide; [eexists _, [_]; split; [done | simpl; lia] |].
    case_bool_decide.
    + eexists _, [_; _]. split; [| simpl; lia].
      unfold logged. simpl. by rewrite <- app_assoc.
    + eexists _, [_]. split; [done | simpl; lia].
Qed.

(** X4: every sequence of [add_item] and [remove_item] calls, with any
    arguments, runs to its end without an exception; it leaves the data
    file and the standard output as they were, keeps the log it found and
    appends one or two records per call. *)
Theorem run_ops_log_only (ops : list op) (M : inventory) w :
  ∃ M' records,
    run_ops ops M w
      = (Return M', World (disk w) (log w ++ records) (stdout w)) ∧
    (length ops ≤ length records ≤ 2 * length ops)%nat.
Proof.
  revert M w. induction ops as [| o ops IH]; intros M w; simpl.
  - exists M, []. destruct w. simpl. by rewrite app_nil_r.
  - destruct (apply_op_log_only M o w) as (M1 & recs1 & Hrun & Hlen).
    destruct (IH M1 (World (disk w) (log w ++ recs1) (stdout w)))
      as (M' & recs & Hrest & Hlen').
    exists M', (recs1 ++ recs)%list. unfold mbind, py_bind.
    rewrite Hrun, Hrest. simpl. rewrite app_assoc. split; [done |].
    rewrite length_app. lia.
Qed.

Lemma apply_op_positive (M : inventory) o w :
  inventory_positive M →
  op_positive o →
  ∃ M' w', apply_op o M w = (Return M', w') ∧ inventory_positive M'.
Proof.
  intros HM Ho. destruct o as [n q p | n q]; simpl in *.
  - rewrite add_item_run.
    destruct (M !! n) as [r|] eqn:Hr; eexists _, _; (split; [done |]);
      apply map_Forall_insert_2; try done.
    specialize (HM n r Hr). simpl in *. lia.
  - rewrite remove_item_run.
    destruct (M !! n) as [r|] eqn:Hr; [| by eexists _, _].
    case_bool_decide as Hlt; [by eexists _, _ |].
    case_bool_decide as Hz; eexists _, _; (split; [done |]).
    + by apply map_Forall_delete.
    + apply map_Forall_insert_2; [simpl; lia | done].
Qed.

(** X5: when every addition passes a quantity above zero, the stock of
    every name in the mapping stays above zero through any sequence of
    calls (removals may pass anything): no record is kept at zero or
    below. *)
Theorem run_ops_positive (ops : list op) (M : inventory) w :
  inventory_positive M →
  Forall op_positive ops →
  ∃ M' w', run_ops ops M w = (Return M', w') ∧ inventory_positive M'.
Proof.
  intros HM Hops. revert M w HM.
  induction Hops as [| o ops Ho _ IH]; intros M w HM; simpl.
  - by eexists _, _.
  - destruct (apply_op_positive M o w HM Ho) as (M1 & w1 & Hrun & HM1).
    destruct (IH M1 w1 HM1) as (M' & w' & Hrest & HM').
    exists M', w'. split; [| done].
    unfold mbind, py_bind. by rewrite Hrun.
Qed.

(** An addition, a removal of the whole stock, and a removal that passes a
    negative quantity. *)
Lemma run_ops_positive_witness :
  inventory_positive widget_inventory ∧
  Forall op_positive
    [Add "Gadget" 3 (NFloat 1); Remove "Widget" 10; Remove "Gadget" (-2)] ∧
  ∃ M' w',
    run_ops
      [Add "Gadget" 3 (NFloat 1); Remove "Widget" 10; Remove "Gadget" (-2)]
      widget_inventory fresh_world = (Return M', w') ∧
    inventory_positive M'.
Proof.
  assert (HM : inventory_positive widget_inventory).
  { apply map_Forall_singleton. simpl. lia. }
  assert (Hops : Forall op_positive
    [Add "Gadget" 3 (NFloat 1); Remove "Widget" 10; Remove "Gadget" (-2)]).
  { repeat constructor. }
  split; [exact HM |]. split; [exact Hops |].
  exact (run_ops_positive _ widget_inventory fresh_world HM Hops).
Defined.

(** ** The store: how calls compose *)

(** X19: the only way to a new price: when the whole stock of a name is
    removed and the name is added again, the record that results has the
    quantity and the price of the second addition; the old price is gone
    with the deleted record. *)
Theorem remove_all_then_add_takes_price (M : inventory) n r q p w :
  M !! n = Some r →
  ∃ M' w',
    (M1 ← remove_item n (quantity r) M; add_item n q p M1) w
      = (Return M', w') ∧
    M' !! n = Some (Rec q p).
Proof.
  intros Hr. unfold mbind, py_bind. rewrite remove_item_run, Hr.
  rewrite bool_decide_false by lia. rewrite bool_decide_true by lia.
  rewrite add_item_run, lookup_delete_eq. eexists _, _. split; [done |].
  by rewrite lookup_insert_eq.
Qed.

(** All ten ["Widget"] at 2.5 go, five come back at 9.99. *)
Lemma remove_all_then_add_takes_price_witness :
  widget_inventory !! "Widget" = Some (Rec 10 (NFloat 2.5)) ∧
  ∃ M' w',
    (M1 ← remove_item "Widget" 10 widget_inventory;
     add_item "Widget" 5 (NFloat 9.99) M1) fresh_world
      = (Return M', w') ∧
    M' !! "Widget" = Some (Rec 5 (NFloat 9.99)).
Proof.
  split; [reflexivity |].
  apply (remove_all_then_add_takes_price widget_inventory "Widget"
           (Rec 10 (NFloat 2.5)) 5 (NFloat 9.99) fresh_world).
  reflexivity.
Defined.

(** X20: two additions of the same name leave the mapping that one
    addition of the two quantities together leaves, at the price of the
    first: the price of the second addition plays no part. *)
Theorem add_item_twice (M : inventory) n q1 p1 q2 p2 w :
  ∃ M' w1 w2,
    (M1 ← add_item n q1 p1 M; add_item n q2 p2 M1) w = (Return M', w1) ∧
    add_item n (q1 + q2) p1 M w = (Return M', w2).
Proof.
  unfold mbind, py_bind. rewrite !add_item_run.
  destruct (M !! n) as [r|]; rewrite add_item_run, lookup_insert_eq; simpl;
    rewrite insert_insert_eq; eexists _, _, _; (split; [done |]);
    by rewrite ?Z.add_assoc.
Qed.

Lemma apply_op_lookup (M : inventory) o w :
  ∃ M' w',
    apply_op o M w = (Return M', w') ∧
    M' !! op_name o = op_effect o (M !! op_name o) ∧
    ∀ k, k ≠ op_name o → M' !! k = M !! k.
Proof.
  destruct o as [n q p | n q]; simpl.
  - rewrite add_item_run.
    destruct (M !! n); eexists _, _; (split; [done |]);
      (split; [by rewrite lookup_insert_eq |]);
      intros k Hk; by rewrite lookup_insert_ne.
  - rewrite remove_item_run.
    destruct (M !! n) as [r|] eqn:Hr; [| by eexists _, _].
    repeat case_bool_decide; eexists _, _; (split; [done |]).
    + done.
    + split; [by rewrite lookup_delete_eq |].
      intros k Hk. by rewrite lookup_delete_ne.
    + split; [by rewrite lookup_insert_eq |].
      intros k Hk. by rewrite lookup_insert_ne.
Qed.

(** X21: calls on two different names commute: whichever of the two is
    made first, both return normally and the mapping that results is the
    same (only the order of the log records differs). *)
Theorem apply_op_commute (M : inventory) o1 o2 w :
  op_name o1 ≠ op_name o2 →
  ∃ M' w1 w2,
    (M1 ← apply_op o1 M; apply_op o2 M1) w = (Return M', w1) ∧
    (M2 ← apply_op o2 M; apply_op o1 M2) w = (Return M', w2).
Proof.
  intros Hne. unfold mbind, py_bind.
  destruct (apply_op_lookup M o1 w) as (M1 & w1 & Hrun1 & Hat1 & Hoff1).
  destruct (apply_op_lookup M1 o2 w1) as (M12 & w12 & Hrun12 & Hat12 & Hoff12).
  destruct (apply_op_lookup M o2 w) as (M2 & w2 & Hrun2 & Hat2 & Hoff2).
  destruct (apply_op_lookup M2 o1 w2) as (M21 & w21 & Hrun21 & Hat21 & Hoff21).
  rewrite Hrun1, Hrun12, Hrun2, Hrun21.
  exists M12, w12, w21. split; [done |]. do 2 f_equal.
  apply map_eq. intros k.
  destruct (decide (k = op_name o1)) as [-> |];
    [| destruct (decide (k = op_name o2)) as [-> |]].
  - by rewrite Hat21, (Hoff2 _ Hne), (Hoff12 _ Hne), Hat1.
  - rewrite Hat12, (Hoff21 (op_name o2)), Hat2 by done.
    by rewrite (Hoff1 (op_name o2)) by done.
  - by rewrite Hoff21, Hoff2, Hoff12, Hoff1.
Qed.

(** ["Widget"] is removed and ["Gadget"] added, in either order. *)
Lemma apply_op_commute_witness :
  op_name (Remove "Widget" 10) ≠ op_name (Add "Gadget" 3 (NFloat 1)) ∧
  ∃ M' w1 w2,
    (M1 ← apply_op (Remove "Widget" 10) widget_inventory;
     apply_op (Add "Gadget" 3 (NFloat 1)) M1) fresh_world
      = (Return M', w1) ∧
    (M2 ← apply_op (Add "Gadget" 3 (NFloat 1)) widget_inventory;
     apply_op (Remove "Widget" 10) M2) fresh_world
      = (Return M', w2).
Proof.
  assert (Hne : op_name (Remove "Widget" 10)
                ≠ op_name (Add "Gadget" 3 (NFloat 1))) by discriminate.
  split; [exact Hne |].
  exact (apply_op_commute widget_inventory (Remove "Widget" 10)
           (Add "Gadget" 3 (NFloat 1)) fresh_world Hne).
Defined.

(** ** Reporting: what is printed *)

Lemma print_data_loop_run (entries : list (string * record)) w :
  for_each entries (λ '(item, details),
    print [PStr item; PStr ": Quantity = "; PInt (quantity details);
           PStr ", Price = "; number_to_py (price details)]) w
  = (Return tt,
     World (disk w) (log w) (stdout w ++ (inventory_line <$> entries))).
Proof.
  revert w. induction entries as [| [item details] entries IH]; intros w.
  - destruct w. simpl. py_unfold. by rewrite app_nil_r.
  - simpl. py_unfold. rewrite IH. simpl. by rewrite <- app_assoc.
Qed.

Lemma print_data_run (M : inventory) w :
  print_data M w =
    (Return tt,
     World (disk w) (log w)
       (stdout w ++
          if bool_decide (M = ∅) then [[PStr "Inventory is empty."]]
          else [PStr "Current Inventory:"]
                 :: (inventory_line <$> map_to_list M))).
Proof.
  unfold print_data. case_bool_decide; [done |].
  unfold mbind, py_bind, print. simpl. rewrite print_data_loop_run. simpl.
  by rewrite <- app_assoc.
Qed.

Lemma inventory_line_inj : Inj (=) (=) inventory_line.
Proof.
  intros [k1 [q1 p1]] [k2 [q2 p2]]. unfold inventory_line. simpl.
  intros [= -> -> Hp]. by destruct p1, p2; simplify_eq/=.
Qed.


(** X7: [check_low_items] prints the single line "No low-stock items
    found." and logs nothing exactly when every record of the mapping has a
    quantity of 5 or more; it never writes to the data file. *)
Theorem check_low_items_none_found (M : inventory) w :
  (∀ item details, M !! item = Some details → 5 ≤ quantity details) ↔
  check_low_items M w
    = (Return tt,
       World (disk w) (log w)
         (stdout w ++ [[PStr "No low-stock items found."]])).
Proof.
  rewrite check_low_items_run. split.
  - intros Hall. rewrite bool_decide_false; [done |].
    intros Hne. apply Hne. apply map_empty. intros item.
    apply eq_None_not_Some. intros [details Hd].
    apply map_lookup_filter_Some in Hd as [Hd Hlow].
    apply Hall in Hd. unfold LOW_STOCK_THRESHOLD in Hlow. simpl in Hlow. lia.
  - case_bool_decide as Hne.
    + intros [= _ Hout]. apply app_inv_head in Hout. discriminate.
    + intros _ item details Hd.
      destruct (decide (quantity details < 5)) as [Hlow |]; [| lia].
      assert (Hin : low_items M !! item = Some details)
        by by apply map_lookup_filter_Some.
      rewrite Hne in Hin. by rewrite lookup_empty in Hin.
Qed.



(** ** The persistence adapter: every way a save and a load can go *)

Section PersistenceOutcomes.
Context `{codec : Json}.

Ltac io_unfold :=
  repeat progress
    (unfold load_data, save_data, json_dump_file, try_except, os_path_exists,
       open_read, open_write, file_write, lift_outcome, mbind, py_bind,
       mret, py_ret, raise, logging; simpl).

(** What [save_data] does, by what [DATA_FILE] names on disk and by how
    [json.dump] ends. *)
Lemma save_data_run (M : inventory) w :
  save_data M w =
    match opened_for_write (disk w) with
    | None =>
        (Return tt,
         logged w ERROR "Error saving inventory data: %s"
           [PStr (match disk w with
                  | Directory => "[Errno 21] Is a directory: 'inventory_data.json'"
                  | _ => "[Errno 13] Permission denied: 'inventory_data.json'"
                  end)])
    | Some readable =>
        let w1 := written w readable (json_dump (inventory_to_py M)).1 in
        match (json_dump (inventory_to_py M)).2 with
        | None =>
            (Return tt,
             logged w1 INFO "Inventory data saved successfully to %s"
               [PStr DATA_FILE])
        | Some e =>
            if caught_by [OSError; JSONDecodeError] e then
              (Return tt,
               logged w1 ERROR "Error saving inventory data: %s"
                 [PStr (exc_str e)])
            else (Raise e, w1)
        end
    end.
Proof.
  destruct w as [[[] | | content readable []] lg out]; io_unfold; try done.
  all: destruct (json_dump (inventory_to_py M)) as [text [e|]]; simpl;
    try done.
  all: by destruct (issubclass (exc_class e) OSError
                    || (issubclass (exc_class e) JSONDecodeError || false)).
Qed.

(** X9: when [DATA_FILE] cannot be opened for writing (it cannot be
    created, it is write-protected, or the path names a directory),
    [save_data] raises nothing: it returns normally, leaves the disk, the
    standard output and the earlier log as they were, and appends one ERROR
    record. *)
Theorem save_data_refused (M : inventory) w :
  opened_for_write (disk w) = None →
  ∃ msg,
    save_data M w
      = (Return tt,
         logged w ERROR "Error saving inventory data: %s" [PStr msg]).
Proof. intros Hd. rewrite save_data_run, Hd. by eexists. Qed.

(** X10: when [DATA_FILE] can be opened for writing, [save_data] replaces
    its content: afterwards the file holds exactly the text [json.dump]
    wrote, whatever it held before and however [json.dump] ended. *)
Theorem save_data_overwrites (M : inventory) readable w :
  opened_for_write (disk w) = Some readable →
  disk (save_data M w).2
    = Regular (json_dump (inventory_to_py M)).1 readable true.
Proof.
  intros Hd. rewrite save_data_run, Hd. cbv zeta.
  destruct (json_dump (inventory_to_py M)).2 as [e|]; [| done].
  by destruct (caught_by [OSError; JSONDecodeError] e).
Qed.

(** X11: when [json.dump] stops with an exception after the file was
    opened, the old content is gone and the file holds the text written so
    far.  An [OSError] (or [JSONDecodeError]) is absorbed: [save_data]
    returns normally with one ERROR record.  Any other exception, a
    [TypeError] or a [ValueError] for instance, reaches the caller and
    nothing is logged. *)
Theorem save_data_dump_stopped (M : inventory) readable text e w :
  opened_for_write (disk w) = Some readable →
  json_dump (inventory_to_py M) = (text, Some e) →
  save_data M w =
    if caught_by [OSError; JSONDecodeError] e then
      (Return tt,
       logged (written w readable text) ERROR
         "Error saving inventory data: %s" [PStr (exc_str e)])
    else (Raise e, written w readable text).
Proof. intros Hd Hdump. by rewrite save_data_run, Hd, Hdump. Qed.

(** X12: [load_data] only reads: whatever it finds and however it ends, it
    leaves the disk and the standard output as they were and appends at
    most one record to the log; when it does append one, it returns the
    empty mapping. *)
Theorem load_data_reads_only w :
  ∃ records,
    (load_data w).2 = World (disk w) (log w ++ records) (stdout w) ∧
    (records = [] ∨
     (length records = 1%nat ∧ (load_data w).1 = Return (PDict []))).
Proof.
  rewrite load_data_run.
  destruct w as [[? | | content [] ?] lg out]; cbn [disk log stdout].
  - eexists [_]. split; [done |]. by right.
  - exists []. split; [by rewrite app_nil_r | by left].
  - destruct (json_load content) as [obj | e].
    + exists []. split; [by rewrite app_nil_r | by left].
    + destruct (caught_by [JSONDecodeError; FileNotFoundError] e).
      * eexists [_]. split; [done |]. by right.
      * exists []. split; [by rewrite app_nil_r | by left].
  - exists []. split; [by rewrite app_nil_r | by left].
Qed.

(** X13: the last save wins: after two saves that both go through, what
    [load_data] returns is the second mapping, provided [json.load] reads
    the text of the second one back; nothing of the first save is left. *)
Theorem save_save_load (M1 M2 : inventory) text1 text2 w :
  store_usable (disk w) = true →
  json_dump (inventory_to_py M1) = (text1, None) →
  json_dump (inventory_to_py M2) = (text2, None) →
  json_load text2 = Return (inventory_to_py M2) →
  ∃ w',
    (save_data M1;; save_data M2;; load_data) w
      = (Return (inventory_to_py M2), w') ∧
    disk w' = Regular text2 true true.
Proof.
  intros Hd Hdump1 Hdump2 Hload. unfold mbind, py_bind.
  rewrite (save_data_run_usable M1 text1 w Hd Hdump1).
  rewrite (save_data_run_usable M2 text2 (saved w text1) eq_refl Hdump2).
  rewrite load_data_run. simpl. rewrite Hload. by eexists.
Qed.
End PersistenceOutcomes.

(** A data file that is write-protected. *)
Lemma save_data_refused_witness :
  opened_for_write (disk (World (Regular widget_json true false) [] []))
    = None ∧
  ∃ msg,
    @save_data sample_json gadget_inventory
      (World (Regular widget_json true false) [] [])
    = (Return tt,
       logged (World (Regular widget_json true false) [] []) ERROR
         "Error saving inventory data: %s" [PStr msg]).
Proof.
  split; [reflexivity |].
  apply (@save_data_refused sample_json gadget_inventory). reflexivity.
Defined.

(** A file that holds an earlier save is opened again. *)
Lemma save_data_overwrites_witness :
  opened_for_write (disk (World (Regular "old content" true true) [] []))
    = Some true ∧
  disk (@save_data sample_json widget_inventory
          (World (Regular "old content" true true) [] [])).2
    = Regular (@json_dump sample_json (inventory_to_py widget_inventory)).1
        true true.
Proof.
  split; [reflexivity |].
  apply (@save_data_overwrites sample_json widget_inventory true).
  reflexivity.
Defined.

(** The sample [json] refuses ["Gadget"] with a [TypeError], which
    [save_data] does not catch: the earlier save is lost and the exception
    goes up. *)
Lemma save_data_dump_stopped_witness :
  opened_for_write (disk (World (Regular widget_json true true) [] []))
    = Some true ∧
  @json_dump sample_json (inventory_to_py gadget_inventory)
    = ("", Some (Exc TypeError "Object is not JSON serializable")) ∧
  @save_data sample_json gadget_inventory
    (World (Regular widget_json true true) [] [])
  = (Raise (Exc TypeError "Object is not JSON serializable"),
     World (Regular "" true true) [] []).
Proof.
  split; [reflexivity |]. split; [vm_compute; reflexivity |].
  apply (@save_data_dump_stopped sample_json gadget_inventory true ""
           (Exc TypeError "Object is not JSON serializable")
           (World (Regular widget_json true true) [] []));
    [reflexivity | vm_compute; reflexivity].
Defined.

(** ** The shell *)

Section ShellProperties.
Context `{codec : Json} `{builtins : Builtins}.

Ltac sh_unfold :=
  repeat progress
    (unfold menu_round, input, lift, lift_outcome, mbind, sh_bind, py_bind,
       mret, sh_ret, py_ret, print; simpl).

(** What a round leaves behind, by the way it ends. *)
Lemma menu_round_ends (M : inventory) lines w :
  match menu_round M lines w with
  | (Return (Got (Some _) rest), w') =>
      (length rest < length lines)%nat ∧ disk w' = disk w
  | (Return (Got None rest), w') =>
      (length rest < length lines)%nat ∧
      ∃ out, stdout w' = (out ++ [[PStr "Data saved. Exiting program."]])%list
  | (Return EndOfInput, w') => disk w' = disk w
  | (Raise _, _) => True
  end.
Proof.
  sh_unfold. destruct lines as [| choice lines]; simpl; [done |].
  destruct (String.eqb choice "1").
  { destruct lines as [| name [| text lines]]; simpl; try done.
    destruct (py_int text) as [qty |]; simpl; [| done].
    destruct lines as [| text' lines]; simpl; [done |].
    destruct (py_float text') as [unit_price |]; simpl; [| done].
    rewrite add_item_run. destruct (M !! name); simpl; split; (lia || done). }
  destruct (String.eqb choice "2").
  { destruct lines as [| name [| text lines]]; simpl; try done.
    destruct (py_int text) as [qty |]; simpl; [| done].
    rewrite remove_item_run. destruct (M !! name); simpl;
      repeat case_bool_decide; simpl; split; (lia || done). }
  destruct (String.eqb choice "3").
  { destruct lines as [| name lines]; simpl; [done |]. split; (lia || done). }
  destruct (String.eqb choice "4").
  { rewrite print_data_run. simpl. split; (lia || done). }
  destruct (String.eqb choice "5").
  { rewrite check_low_items_run. simpl.
    case_bool_decide; simpl; split; (lia || done). }
  destruct (String.eqb choice "6").
  { destruct (save_data M _) as [[[] | e] w1]; simpl; [| done].
    split; [lia | by eexists]. }
  simpl. split; (lia || done).
Qed.
Lemma menu_loop_step (rounds : nat) (M : inventory) lines w :
  menu_loop (S rounds) M lines w =
    match menu_round M lines w with
    | (Return (Got (Some M') rest), w') => menu_loop rounds M' rest w'
    | (Return (Got None rest), w') => (Return (Got Exited rest), w')
    | (Return EndOfInput, w') => (Return EndOfInput, w')
    | (Raise e, w') => (Raise e, w')
    end.
Proof.
  simpl. unfold mbind at 1. unfold sh_bind, mbind, py_bind.
  by destruct (menu_round M lines w) as [[[[M' |] rest |] | e] w'].
Qed.

Lemma menu_loop_ends (rounds : nat) (M : inventory) lines w :
  (length lines < rounds)%nat →
  match menu_loop rounds M lines w with
  | (Return (Got Exited _), w') =>
      ∃ out, stdout w' = (out ++ [[PStr "Data saved. Exiting program."]])%list
  | (Return (Got OutOfRounds _), _) => False
  | (Return EndOfInput, w') => disk w' = disk w
  | (Raise _, _) => True
  end.
Proof.
  revert M lines w. induction rounds as [| rounds IH]; intros M lines w Hlen;
    [lia |].
  rewrite menu_loop_step. pose proof (menu_round_ends M lines w) as Hround.
  destruct (menu_round M lines w) as [[[[M' |] rest |] | e] w']; try done.
  - destruct Hround as [Hrest Hdisk].
    specialize (IH M' rest w' ltac:(lia)).
    destruct (menu_loop rounds M' rest w') as [[[[] ?|] | ?] w'']; try done.
    by rewrite IH.
  - by destruct Hround.
Qed.

(** X14: on every finite input the loop of [main] comes to an end, in one
    of three ways.  It returns after "Save & Exit", and then the last line
    printed is "Data saved. Exiting program."; or the input ends first
    ([EOFError]), and then the data file is as it was before the loop: no
    change of the session was saved; or an exception is raised. *)
Theorem menu_ends (M : inventory) lines w :
  ∃ res w',
    menu M lines w = (res, w') ∧
    ((∃ rest out,
        res = Return (Got Exited rest) ∧
        stdout w' = (out ++ [[PStr "Data saved. Exiting program."]])%list) ∨
     (res = Return EndOfInput ∧ disk w' = disk w) ∨
     (∃ e, res = Raise e)).
Proof.
  unfold menu.
  pose proof (menu_loop_ends (S (length lines)) M lines w ltac:(lia)) as H.
  destruct (menu_loop (S (length lines)) M lines w)
    as [[[[] rest |] | e] w']; eexists _, _; (split; [done |]).
  - left. destruct H as [out Hout]. by exists rest, out.
  - done.
  - right. by left.
  - right. right. by eexists.
Qed.

(** X15: "Save & Exit" when [DATA_FILE] cannot be opened for writing: the
    loop still prints "Data saved. Exiting program." and returns normally,
    although the disk is as it was and the only trace of the failure is
    one ERROR record in the log. *)
Theorem menu_exit_unsaved (M : inventory) rest w :
  opened_for_write (disk w) = None →
  ∃ msg out,
    menu M ("6" :: rest) w
      = (Return (Got Exited rest),
         World (disk w)
           (log w ++ [LogRecord ERROR "Error saving inventory data: %s"
                        [PStr msg]])
           (out ++ [[PStr "Data saved. Exiting program."]])).
Proof.
  intros Hd. unfold menu. rewrite menu_loop_step. sh_unfold.
  rewrite save_data_run. simpl. rewrite Hd. simpl. by eexists _, _.
Qed.

(** X16: a choice that is none of "1" to "6" changes nothing: the round
    prints "Invalid choice, try again.", reads no further line, and goes
    round again with the same mapping, the same disk and the same log. *)
Theorem menu_round_invalid_choice (M : inventory) choice rest w :
  choice ∉ ["1"; "2"; "3"; "4"; "5"; "6"] →
  ∃ out,
    menu_round M (choice :: rest) w
      = (Return (Got (Some M) rest),
         World (disk w) (log w)
           (out ++ [[PStr "Invalid choice, try again."]])).
Proof.
  intros Hc.
  assert (Hne : ∀ c, c ∈ ["1"; "2"; "3"; "4"; "5"; "6"] →
                     String.eqb choice c = false).
  { intros c Hin. apply String.eqb_neq. by intros ->. }
  sh_unfold. rewrite !Hne by (repeat constructor). simpl. by eexists.
Qed.

(** X17: a quantity that [int] rejects, under "Add Item" or "Remove Item",
    ends the loop with the [ValueError] of [int]: the exception is caught
    nowhere, the disk and the log are as they were, and nothing of the
    session has been saved. *)
Theorem menu_bad_quantity (M : inventory) choice name text rest e w :
  choice = "1" ∨ choice = "2" →
  py_int text = Raise e →
  ∃ out,
    menu M (choice :: name :: text :: rest) w
      = (Raise e, World (disk w) (log w) out).
Proof.
  intros Hc Hint. unfold menu. rewrite menu_loop_step.
  destruct Hc as [-> | ->]; sh_unfold; rewrite Hint; simpl; by eexists.
Qed.

(** X18: a price that [float] rejects under "Add Item" ends the loop in the
    same way, after the quantity was read: nothing is added and nothing
    saved. *)
Theorem menu_bad_price (M : inventory) name text qty text' rest e w :
  py_int text = Return qty →
  py_float text' = Raise e →
  ∃ out,
    menu M ("1" :: name :: text :: text' :: rest) w
      = (Raise e, World (disk w) (log w) out).
Proof.
  intros Hint Hfloat. unfold menu. rewrite menu_loop_step.
  sh_unfold. rewrite Hint. simpl. rewrite Hfloat. simpl. by eexists.
Qed.
End ShellProperties.

(** A session on the samples: ten ["Widget"] at 2.5 are added to an empty
    inventory and saved on the way out; the data file then holds
    [widget_json]. *)
Example widget_session :
  let run :=
    @menu sample_json sample_builtins ∅
      ["1"; "Widget"; "10"; "2.5"; "6"] fresh_world in
  run.1 = Return (Got Exited []) ∧
  disk run.2 = Regular widget_json true true ∧
  log run.2 =
    [LogRecord INFO "Added new item %s with quantity %d"
       [PStr "Widget"; PInt 10];
     LogRecord INFO "Inventory data saved successfully to %s"
       [PStr DATA_FILE]].
Proof. vm_compute. done. Qed.

(** An empty inventory is saved, then [widget_inventory]. *)
Lemma save_save_load_witness :
  store_usable (disk fresh_world) = true ∧
  @json_dump two_entry_json (inventory_to_py ∅) = ("{}", None) ∧
  @json_dump two_entry_json (inventory_to_py widget_inventory)
    = (widget_json, None) ∧
  @json_load two_entry_json widget_json
    = Return (inventory_to_py widget_inventory) ∧
  ∃ w',
    (@save_data two_entry_json ∅;;
     @save_data two_entry_json widget_inventory;;
     @load_data two_entry_json) fresh_world
      = (Return (inventory_to_py widget_inventory), w') ∧
    disk w' = Regular widget_json true true.
Proof.
  split; [reflexivity |]. split; [vm_compute; reflexivity |].
  split; [vm_compute; reflexivity |]. split; [vm_compute; reflexivity |].
  apply (@save_save_load two_entry_json ∅ widget_inventory "{}" widget_json
           fresh_world); vm_compute; reflexivity.
Defined.

(** "Save & Exit" where the data file cannot be created. *)
Lemma menu_exit_unsaved_witness :
  opened_for_write (disk readonly_world) = None ∧
  ∃ msg out,
    @menu sample_json sample_builtins widget_inventory ["6"] readonly_world
      = (Return (Got Exited []),
         World (disk readonly_world)
           (log readonly_world ++
              [LogRecord ERROR "Error saving inventory data: %s" [PStr msg]])
           (out ++ [[PStr "Data saved. Exiting program."]])).
Proof.
  split; [reflexivity |].
  apply (@menu_exit_unsaved sample_json sample_builtins widget_inventory []
           readonly_world).
  reflexivity.
Defined.

(** The choice "7". *)
Lemma menu_round_invalid_choice_witness :
  ("7" ∉ ["1"; "2"; "3"; "4"; "5"; "6"]) ∧
  ∃ out,
    @menu_round sample_json sample_builtins widget_inventory ["7"; "6"]
      fresh_world
      = (Return (Got (Some widget_inventory) ["6"]),
         World (disk fresh_world) (log fresh_world)
           (out ++ [[PStr "Invalid choice, try again."]])).
Proof.
  assert (Hc : "7" ∉ ["1"; "2"; "3"; "4"; "5"; "6"]).
  { intros Hin. repeat (apply elem_of_cons in Hin as [[=] | Hin]).
    by apply elem_of_nil in Hin. }
  split; [exact Hc |].
  exact (@menu_round_invalid_choice sample_json sample_builtins
           widget_inventory "7" ["6"] fresh_world Hc).
Defined.

(** "Remove Item" with the quantity typed as a word. *)
Lemma menu_bad_quantity_witness :
  ("2" = "1" ∨ "2" = "2") ∧
  @py_int sample_builtins "lots"
    = Raise (Exc ValueError "invalid literal for int() with base 10: 'lots'") ∧
  ∃ out,
    @menu sample_json sample_builtins widget_inventory
      ["2"; "Widget"; "lots"; "6"] fresh_world
      = (Raise (Exc ValueError "invalid literal for int() with base 10: 'lots'"),
         World (disk fresh_world) (log fresh_world) out).
Proof.
  split; [by right |]. split; [reflexivity |].
  apply (@menu_bad_quantity sample_json sample_builtins widget_inventory
           "2" "Widget" "lots" ["6"]); [by right | reflexivity].
Defined.

(** "Add Item" with the price typed as a word. *)
Lemma menu_bad_price_witness :
  @py_int sample_builtins "10" = Return 10 ∧
  @py_float sample_builtins "cheap"
    = Raise (Exc ValueError "could not convert string to float: 'cheap'") ∧
  ∃ out,
    @menu sample_json sample_builtins widget_inventory
      ["1"; "Widget"; "10"; "cheap"; "6"] fresh_world
      = (Raise (Exc ValueError "could not convert string to float: 'cheap'"),
         World (disk fresh_world) (log fresh_world) out).
Proof.
  split; [reflexivity |]. split; [reflexivity |].
  apply (@menu_bad_price sample_json sample_builtins widget_inventory
           "Widget" "10" 10 "cheap" ["6"]); reflexivity.
Defined.
